(** * MongooseQueue: a job queue kept in a MongoDB collection

    A shallow embedding of [lib/mongoose-queue.js] and
    [schemas/job-schema.js].

    - The job collection is a list of documents in insertion order.
    - Every [Date.now()] of the source is an explicit argument (a time in
      milliseconds, as [Z]); so is the [_id] that mongoose generates for
      a new document.
    - Callbacks [cb(err, value)] become a returned [Callback]: exactly one
      of an error or a value.
    - The store is reached through the four primitives the source calls
      ([save], [findOneAndUpdate], [remove], [populate]); each of them is
      one atomic step on the collection.  Connectivity failures of the
      store are not modelled: the only store errors are the ones [save]
      raises (validation, duplicate [_id]) and the one a lookup raises
      for a [jobId] that is no ObjectId.
    - The [updatedAt] stamp that [timestamps: true] maintains is left out;
      [createdAt] is kept, the claim order depends on it.
    - An ObjectId is the string of its hexadecimal form, so
      [job._id.toString()] is the identifier itself; a [jobId] handed to
      [ack] or [error] is cast by the store before it is looked up. *)

From Stdlib Require Import ZArith List String Bool Lia Permutation.
Import ListNotations.
Local Open Scope string_scope.
Local Open Scope list_scope.
Local Open Scope Z_scope.

(** ** JavaScript values handed to the queue *)

Module Js.

#[local] Unset Elimination Schemes.
Inductive value : Type :=
| undefined
| null
| boolean (b : bool)
| number (n : Z)
| text (s : string)
| objectId (hex : string)
| object (fields : list (string * value)).
#[local] Set Elimination Schemes.

(** [!v] is [negb (truthy v)]. *)
Definition truthy (v : value) : bool :=
  match v with
  | undefined | null => false
  | boolean b => b
  | number n => negb (n =? 0)
  | text s => negb (String.eqb s "")
  | objectId _ | object _ => true
  end.

Fixpoint field (k : string) (fs : list (string * value)) : value :=
  match fs with
  | [] => undefined
  | (k', v) :: rest => if String.eqb k k' then v else field k rest
  end.

(** [v.k] for a value that is neither [null] nor [undefined]. *)
Definition prop (v : value) (k : string) : value :=
  match v with
  | object fs => field k fs
  | _ => undefined
  end.

(** A value that is there: neither [undefined] nor [null]. *)
Definition present (v : value) : bool :=
  match v with
  | undefined | null => false
  | _ => true
  end.

(** Equality of two identity references, as the store matches them. *)
Definition sameId (a b : value) : bool :=
  match a, b with
  | objectId x, objectId y => String.eqb x y
  | text x, text y => String.eqb x y
  | number x, number y => x =? y
  | _, _ => false
  end.

End Js.

(** ** Results reported to a callback *)

Inductive Callback (A : Type) : Type :=
| Err (message : string)
| Ok (result : A).
Arguments Err {A} message.
Arguments Ok {A} result.

(** ** schemas/job-schema.js *)

Definition ObjectId := string.

(** What a caller hands over as [jobId]: a string, as [add] reports an id
    ([job._id.toString()]), or an ObjectId, as the views of [get] and
    [ack] carry one ([job._id]). *)
Inductive JobId : Type :=
| IdString (s : string)
| IdObject (id : ObjectId).

(** Hexadecimal spelling of ObjectIds. *)
Module Hex.

Definition between (lo hi : N) (c : Ascii.ascii) : bool :=
  (lo <=? Ascii.N_of_ascii c)%N && (Ascii.N_of_ascii c <=? hi)%N.

(** [0-9a-fA-F] *)
Definition isDigit (c : Ascii.ascii) : bool :=
  between 48 57 c || between 65 70 c || between 97 102 c.

(** [A-F] becomes [a-f]. *)
Definition lower (c : Ascii.ascii) : Ascii.ascii :=
  if between 65 70 c then Ascii.ascii_of_N (Ascii.N_of_ascii c + 32) else c.

(** The digit of a value below sixteen. *)
Definition digit (n : N) : Ascii.ascii :=
  if (n <? 10)%N then Ascii.ascii_of_N (48 + n) else Ascii.ascii_of_N (87 + n).

Fixpoint all (p : Ascii.ascii -> bool) (s : string) : bool :=
  match s with
  | EmptyString => true
  | String c rest => p c && all p rest
  end.

Fixpoint map (f : Ascii.ascii -> Ascii.ascii) (s : string) : string :=
  match s with
  | EmptyString => EmptyString
  | String c rest => String (f c) (map f rest)
  end.

(** Two digits for every byte of [s]. *)
Fixpoint encode (s : string) : string :=
  match s with
  | EmptyString => EmptyString
  | String c rest =>
      String (digit (Ascii.N_of_ascii c / 16))
        (String (digit (Ascii.N_of_ascii c mod 16)) (encode rest))
  end.

End Hex.

(** A mongoose schema type: the constructor handed over as
    [payloadRefType], with the cast the store applies to a value saved
    under a path of that type. *)
Record SchemaType : Type := mkSchemaType {
  typeName : string;
  cast : Js.value -> option Js.value
}.

(** The schema built by [new Schema({...})].  Only two of its entries are
    not literals: the default of [blockedUntil], which is the value of
    [Date.now()] when the schema is built, and the type of [payload]. *)
Record Schema : Type := mkSchema {
  blockedUntilDefault : Z;
  payloadType : SchemaType
}.

Record Model : Type := mkModel {
  modelName : string;
  schema : Schema
}.

(** [module.exports = function(collectionName, payloadRefType)]: the
    module variable [Job] is threaded through; [now] is the clock when the
    call runs. *)
Definition JobSchema (now : Z) (collectionName : string)
    (payloadRefType : SchemaType) (Job : option Schema)
  : option Schema * Model :=
  let Job' :=
    match Job with
    | None => mkSchema now payloadRefType
    | Some built => built
    end in
  (Some Job', mkModel collectionName Job').

(** A stored job document. *)
Module Job.

Record t : Type := mk {
  _id : ObjectId;
  blockedUntil : Z;
  workerHostname : option string;
  workerId : option string;
  retries : Z;
  payload : Js.value;
  done : bool;
  error : option string;
  createdAt : Z
}.

(** [$set: {blockedUntil, workerId, workerHostname}, $inc: {retries: 1}] *)
Definition claim (until : Z) (worker host : string) (j : t) : t :=
  mk (_id j) until (Some host) (Some worker) (retries j + 1)
     (payload j) (done j) (error j) (createdAt j).

(** [$set: {done: true}] *)
Definition setDone (j : t) : t :=
  mk (_id j) (blockedUntil j) (workerHostname j) (workerId j) (retries j)
     (payload j) true (error j) (createdAt j).

(** [$set: {done: true, error: message}] *)
Definition setError (message : string) (j : t) : t :=
  mk (_id j) (blockedUntil j) (workerHostname j) (workerId j) (retries j)
     (payload j) true (Some message) (createdAt j).

Definition setPayload (p : Js.value) (j : t) : t :=
  mk (_id j) (blockedUntil j) (workerHostname j) (workerId j) (retries j)
     p (done j) (error j) (createdAt j).

End Job.

(** ** The database *)

Record Db : Type := mkDb {
  jobs : list Job.t;                        (* the queue collection *)
  documents : string -> list Js.value       (* payload collections, by model *)
}.

Definition withJobs (db : Db) (js : list Job.t) : Db :=
  mkDb js (documents db).

Definition ids (js : list Job.t) : list ObjectId := map Job._id js.

(** ** The store primitives the queue calls *)

Module Store.

Inductive result (A : Type) : Type :=
| Failed (err : string)
| Done (doc : A).
Arguments Failed {A} err.
Arguments Done {A} doc.

(** Every document of a collection, with the documents before and after
    it. *)
Fixpoint cursors (docs : list Job.t)
  : list (list Job.t * Job.t * list Job.t) :=
  match docs with
  | [] => []
  | d :: rest =>
      ([], d, rest)
        :: map (fun c => match c with (pre, x, post) => (d :: pre, x, post) end)
               (cursors rest)
  end.

Definition current (c : list Job.t * Job.t * list Job.t) : Job.t :=
  snd (fst c).

(** Stable ascending sort on a key. *)
Fixpoint insertAsc {A : Type} (key : A -> Z) (x : A) (sorted : list A)
  : list A :=
  match sorted with
  | [] => [x]
  | y :: rest =>
      if key x <=? key y then x :: y :: rest
      else y :: insertAsc key x rest
  end.

Fixpoint sortAsc {A : Type} (key : A -> Z) (l : list A) : list A :=
  match l with
  | [] => []
  | x :: rest => insertAsc key x (sortAsc key rest)
  end.

(** The cast the store applies to the value of [_id] in a filter before it
    looks anything up.  An ObjectId is taken as it is; a string must be 24
    hexadecimal digits, read in either case, or 12 bytes, which are the
    bytes of the id; any other string is refused. *)
Definition castObjectId (jobId : JobId) : option ObjectId :=
  match jobId with
  | IdObject id => Some id
  | IdString s =>
      if (String.length s =? 24)%nat && Hex.all Hex.isDigit s then
        Some (Hex.map Hex.lower s)
      else if (String.length s =? 12)%nat then
        Some (Hex.encode s)
      else
        None
  end.

(** The error of a filter whose [_id] cannot be cast (a [CastError]). *)
Definition castError : string := "Cast to ObjectId failed at path _id.".

(** [Model.findOneAndUpdate(filter, update, {new: true, sort})]: the
    first document matching [filter] under [sort] (collection order
    when there is no sort, and among equal keys) is replaced by its
    update, which is returned. *)
Definition findOneAndUpdate (filter : Job.t -> bool)
    (update : Job.t -> Job.t) (sort : option (Job.t -> Z))
    (docs : list Job.t) : list Job.t * result (option Job.t) :=
  let matching := List.filter (fun c => filter (current c)) (cursors docs) in
  let ordered :=
    match sort with
    | Some key => sortAsc (fun c => key (current c)) matching
    | None => matching
    end in
  match ordered with
  | [] => (docs, Done None)
  | (pre, d, post) :: _ => (pre ++ update d :: post, Done (Some (update d)))
  end.

(** [Model.remove(filter)] *)
Definition remove (filter : Job.t -> bool) (docs : list Job.t)
  : list Job.t * result unit :=
  (List.filter (fun d => negb (filter d)) docs, Done tt).

(** [new Model({payload: ref}).save()]: the schema defaults fill the
    other paths, [ref] is cast to the payload type and must be present
    after the cast, and [_id] is unique in the collection. *)
Definition save (m : Model) (now : Z) (fresh : ObjectId) (ref : Js.value)
    (docs : list Job.t) : list Job.t * result Job.t :=
  match cast (payloadType (schema m)) ref with
  | None => (docs, Failed "Cast to payload type failed.")
  | Some r =>
      if negb (Js.present r) then
        (docs, Failed "Path `payload` is required.")
      else if existsb (String.eqb fresh) (ids docs) then
        (docs, Failed "E11000 duplicate key error.")
      else
        let job :=
          Job.mk fresh (blockedUntilDefault (schema m)) None None 0 r
                 false None now in
        (docs ++ [job], Done job)
  end.

(** [.populate({path: 'payload', model})]: the reference is replaced by
    the document of the payload collection it names, or by [null]. *)
Definition resolve (docs : list Js.value) (ref : Js.value) : Js.value :=
  match List.find (fun d => Js.sameId (Js.prop d "_id") ref) docs with
  | Some d => d
  | None => Js.null
  end.

Definition populate (docs : list Js.value)
    (found : result (option Job.t)) : result (option Job.t) :=
  match found with
  | Failed err => Failed err
  | Done None => Done None
  | Done (Some j) => Done (Some (Job.setPayload (resolve docs (Job.payload j)) j))
  end.

End Store.

(** ** lib/mongoose-queue.js *)

(** What [get] and [ack] hand to the callback. *)
Module View.
Record t : Type := mk {
  id : ObjectId;
  payload : Js.value;
  blockedUntil : Z;
  done : bool
}.
End View.

(** What [error] hands to the callback. *)
Module ErrorView.
Record t : Type := mk {
  id : ObjectId;
  payload : Js.value;
  blockedUntil : Z;
  done : bool;
  error : option string
}.
End ErrorView.

Module MongooseQueue.

Record Options : Type := mkOptions {
  payloadRefType : SchemaType;
  queueCollection : string;
  blockDuration : Z;
  maxRetries : Z
}.

(** The [options] argument: any of the keys may be missing. *)
Record OptionsArg : Type := mkOptionsArg {
  payloadRefTypeArg : option SchemaType;
  queueCollectionArg : option string;
  blockDurationArg : option Z;
  maxRetriesArg : option Z
}.

Definition orElse {A : Type} (o : option A) (d : A) : A :=
  match o with Some a => a | None => d end.

(** [_.defaults(options, {...})]; [objectIdType] is
    [Schema.Types.ObjectId]. *)
Definition defaults (objectIdType : SchemaType) (o : OptionsArg) : Options :=
  mkOptions (orElse (payloadRefTypeArg o) objectIdType)
            (orElse (queueCollectionArg o) "queue")
            (orElse (blockDurationArg o) 30000)
            (orElse (maxRetriesArg o) 5).

Definition noOptions : OptionsArg := mkOptionsArg None None None None.

Record t : Type := mk {
  payloadModel : string;
  workerHostname : string;
  workerId : string;
  options : Options;
  JobModel : Model
}.

(** [constructor(payloadModel, workerId = '', options = {})];
    [hostname] is [os.hostname()], [Job] the module variable of the
    schema file, [now] the clock. *)
Definition constructor (objectIdType : SchemaType) (hostname : string)
    (now : Z) (payloadModel : string) (workerId : option string)
    (options : option OptionsArg) (Job : option Schema)
  : option Schema * t :=
  let opts := defaults objectIdType (orElse options noOptions) in
  let '(Job', model) :=
    JobSchema now (queueCollection opts) (payloadRefType opts) Job in
  (Job', mk payloadModel hostname (orElse workerId "") opts model).

(** [add(payload, cb)]; [now] and [fresh] are the creation time and the
    [_id] of the new document. *)
Definition add (q : t) (now : Z) (fresh : ObjectId) (payload : Js.value)
    (db : Db) : Db * Callback ObjectId :=
  if negb (Js.truthy payload) then
    (db, Err "Payload missing.")
  else if negb (Js.truthy (Js.prop payload "_id")) then
    (db, Err "Payload is no valid Mongoose document.")
  else
    match Store.save (JobModel q) now fresh (Js.prop payload "_id") (jobs db) with
    | (docs, Store.Failed err) => (withJobs db docs, Err err)
    | (docs, Store.Done job) => (withJobs db docs, Ok (Job._id job))
    end.

(** The filter of [get]. *)
Definition claimable (maxRetries now : Z) (j : Job.t) : bool :=
  (Job.blockedUntil j <? now)
  && (Job.retries j <=? maxRetries)
  && negb (Job.done j).

(** [get(cb)]; [now1] is the [Date.now()] of the filter, [now2] the one
    of the update. *)
Definition get (q : t) (now1 now2 : Z) (db : Db)
  : Db * Callback (option View.t) :=
  let '(docs, found) :=
    Store.findOneAndUpdate
      (claimable (maxRetries (options q)) now1)
      (Job.claim (now2 + blockDuration (options q))
                 (workerId q) (workerHostname q))
      (Some Job.createdAt)
      (jobs db) in
  match Store.populate (documents db (payloadModel q)) found with
  | Store.Failed err => (withJobs db docs, Err err)
  | Store.Done None => (withJobs db docs, Ok None)
  | Store.Done (Some job) =>
      (withJobs db docs,
       Ok (Some (View.mk (Job._id job) (Job.payload job)
                         (Job.blockedUntil job) (Job.done job))))
  end.

Definition hasId (jobId : ObjectId) (j : Job.t) : bool :=
  String.eqb (Job._id j) jobId.

(** [JobModel.findOneAndUpdate({_id: jobId}, update, {new: true}, ...)]:
    the store casts [jobId] to an ObjectId; when it cannot, the call
    fails with the cast error and nothing is looked up. *)
Definition byId (jobId : JobId) (update : Job.t -> Job.t) (docs : list Job.t)
  : list Job.t * Store.result (option Job.t) :=
  match Store.castObjectId jobId with
  | None => (docs, Store.Failed Store.castError)
  | Some id => Store.findOneAndUpdate (hasId id) update None docs
  end.

(** [ack(jobId, cb)] *)
Definition ack (q : t) (jobId : JobId) (db : Db)
  : Db * Callback View.t :=
  match byId jobId Job.setDone (jobs db) with
  | (docs, Store.Failed err) => (withJobs db docs, Err err)
  | (docs, Store.Done None) =>
      (withJobs db docs, Err "Job id invalid, job not found.")
  | (docs, Store.Done (Some job)) =>
      (withJobs db docs,
       Ok (View.mk (Job._id job) (Job.payload job)
                   (Job.blockedUntil job) (Job.done job)))
  end.

(** [error(jobId, error, cb)] *)
Definition error (q : t) (jobId : JobId) (message : string) (db : Db)
  : Db * Callback ErrorView.t :=
  match byId jobId (Job.setError message) (jobs db) with
  | (docs, Store.Failed err) => (withJobs db docs, Err err)
  | (docs, Store.Done None) =>
      (withJobs db docs, Err "Job id invalid, job not found.")
  | (docs, Store.Done (Some job)) =>
      (withJobs db docs,
       Ok (ErrorView.mk (Job._id job) (Job.payload job)
                        (Job.blockedUntil job) (Job.done job)
                        (Job.error job)))
  end.

(** The filter of [clean]:
    [{$or: [{done: true}, {retries: {$gt: maxRetries}}]}]. *)
Definition cleanable (maxRetries : Z) (j : Job.t) : bool :=
  Job.done j || (Job.retries j >? maxRetries).

(** [clean(cb)] *)
Definition clean (q : t) (db : Db) : Db * Callback unit :=
  match Store.remove (cleanable (maxRetries (options q))) (jobs db) with
  | (docs, Store.Failed err) => (withJobs db docs, Err err)
  | (docs, Store.Done _) => (withJobs db docs, Ok tt)
  end.

(** [reset(cb)] *)
Definition reset (q : t) (db : Db) : Db * Callback unit :=
  match Store.remove (fun _ => true) (jobs db) with
  | (docs, Store.Failed err) => (withJobs db docs, Err err)
  | (docs, Store.Done _) => (withJobs db docs, Ok tt)
  end.

End MongooseQueue.

(** ** Several [get] calls on one collection

    Each [get] reads its clock twice on the caller's side and then issues
    one atomic [findOneAndUpdate].  Calls that are in flight together are
    therefore served by the store one after another, in some order, each
    with the clock values its caller read. *)

Record GetCall : Type := mkGetCall {
  caller : MongooseQueue.t;
  filterClock : Z;
  updateClock : Z
}.

Fixpoint serve (calls : list GetCall) (db : Db)
  : Db * list (Callback (option View.t)) :=
  match calls with
  | [] => (db, [])
  | c :: rest =>
      let '(db1, r) :=
        MongooseQueue.get (caller c) (filterClock c) (updateClock c) db in
      let '(db2, rs) := serve rest db1 in
      (db2, r :: rs)
  end.

Definition claimedId (r : Callback (option View.t)) : option ObjectId :=
  match r with
  | Ok (Some v) => Some (View.id v)
  | _ => None
  end.

Fixpoint claimedIds (rs : list (Callback (option View.t))) : list ObjectId :=
  match rs with
  | [] => []
  | r :: rest =>
      match claimedId r with
      | Some i => i :: claimedIds rest
      | None => claimedIds rest
      end
  end.

Definition isEmpty (r : Callback (option View.t)) : bool :=
  match r with
  | Ok None => true
  | _ => false
  end.

(** The clock values of a sequence of [get] calls lie in one blocking
    window ending at [hi], for queues with the same [maxRetries]: every
    filter clock is at or before [hi], no call blocks a job until a time
    before [hi], and a job that is claimable at [hi] is already unblocked
    at every filter clock. *)
Definition oneWindow (mr hi : Z) (calls : list GetCall) (docs : list Job.t)
  : Prop :=
  (forall c, In c calls ->
     MongooseQueue.maxRetries (MongooseQueue.options (caller c)) = mr
     /\ filterClock c <= hi
     /\ hi <= updateClock c
              + MongooseQueue.blockDuration (MongooseQueue.options (caller c)))
  /\ (forall c j, In c calls -> In j docs ->
        Job.done j = false -> Job.retries j <= mr -> Job.blockedUntil j < hi ->
        Job.blockedUntil j < filterClock c).

(** ** Any sequence of operations

    The six operations of the class, each with the queue instance that
    issues it and the clock values and fresh identifier it uses. *)

Inductive Call : Type :=
| CallAdd (now : Z) (fresh : ObjectId) (payload : Js.value)
| CallGet (now1 now2 : Z)
| CallAck (jobId : JobId)
| CallError (jobId : JobId) (message : string)
| CallClean
| CallReset.

Definition perform (q : MongooseQueue.t) (call : Call) (db : Db) : Db :=
  match call with
  | CallAdd now fresh payload => fst (MongooseQueue.add q now fresh payload db)
  | CallGet now1 now2 => fst (MongooseQueue.get q now1 now2 db)
  | CallAck jobId => fst (MongooseQueue.ack q jobId db)
  | CallError jobId message => fst (MongooseQueue.error q jobId message db)
  | CallClean => fst (MongooseQueue.clean q db)
  | CallReset => fst (MongooseQueue.reset q db)
  end.

Fixpoint run (calls : list (MongooseQueue.t * Call)) (db : Db) : Db :=
  match calls with
  | [] => db
  | (q, call) :: rest => run rest (perform q call db)
  end.

(** ** Sample data for the worked examples *)

Module Sample.

(** [Schema.Types.ObjectId], as far as the examples need it: an ObjectId
    is kept as it is, anything else is refused. *)
Definition objectIdType : SchemaType :=
  mkSchemaType "ObjectId"
    (fun v => match v with Js.objectId h => Some (Js.objectId h) | _ => None end).

Definition stringType : SchemaType :=
  mkSchemaType "String"
    (fun v => match v with Js.text s => Some (Js.text s) | _ => None end).

Definition payloadDoc : Js.value :=
  Js.object [("_id", Js.objectId "p1");
             ("first", Js.text "First element");
             ("second", Js.text "Second element")].

Definition documents (model : string) : list Js.value :=
  if String.eqb model "payload" then [payloadDoc] else [].

Definition emptyDb : Db := mkDb [] documents.

(** [new MongooseQueue('payload', '123456789')], first in its process, at
    time 1000 on host "alpha". *)
Definition queue : MongooseQueue.t :=
  snd (MongooseQueue.constructor objectIdType "alpha" 1000 "payload"
         (Some "123456789") None None).

(** A worker on its own host: [new MongooseQueue('payload', id, options)],
    first in its process, at time 1000. *)
Definition worker (hostname id : string)
    (options : option MongooseQueue.OptionsArg) : MongooseQueue.t :=
  snd (MongooseQueue.constructor objectIdType hostname 1000 "payload"
         (Some id) options None).

(** [{blockDuration: ms}] *)
Definition blockFor (ms : Z) : option MongooseQueue.OptionsArg :=
  Some (MongooseQueue.mkOptionsArg None None (Some ms) None).

(** An untouched job, as [new Job({payload: ...}).save()] leaves it. *)
Definition job (id : ObjectId) (created : Z) : Job.t :=
  Job.mk id 1000 None None 0 (Js.objectId "p1") false None created.

End Sample.

(** What one [findOneAndUpdate] does: nothing matches and the collection
    is left as it is, or one matching document, lowest under the sort, is
    updated in place. *)
Inductive Outcome (filter : Job.t -> bool) (update : Job.t -> Job.t)
    (sort : option (Job.t -> Z)) (docs : list Job.t)
  : list Job.t * Store.result (option Job.t) -> Prop :=
| NothingMatched :
    (forall d, In d docs -> filter d = false) ->
    Outcome filter update sort docs (docs, Store.Done None)
| Updated pre d post :
    docs = pre ++ d :: post ->
    filter d = true ->
    (forall key, sort = Some key ->
       forall x, In x docs -> filter x = true -> key d <= key x) ->
    (sort = None -> forall x, In x pre -> filter x = false) ->
    Outcome filter update sort docs
      (pre ++ update d :: post, Store.Done (Some (update d))).

(** ** Several calls of the schema factory in one process *)


(** * Properties *)

(** ** The store primitives *)

Lemma withJobs_same (db : Db) : withJobs db (jobs db) = db.
Proof. destruct db; reflexivity. Qed.

Lemma cursors_split docs pre d post :
  In (pre, d, post) (Store.cursors docs) -> docs = pre ++ d :: post.
Proof.
  revert pre d post.
  induction docs as [|x rest IH]; intros pre d post Hin; simpl in Hin.
  - contradiction.
  - destruct Hin as [Heq | Hin].
    + inversion Heq; subst; reflexivity.
    + apply in_map_iff in Hin.
      destruct Hin as [[[pre' d'] post'] [Heq Hin]].
      inversion Heq; subst.
      simpl. f_equal. apply IH; assumption.
Qed.

Lemma cursors_cover docs d :
  In d docs -> exists pre post, In (pre, d, post) (Store.cursors docs).
Proof.
  induction docs as [|x rest IH]; intros Hin; simpl in Hin.
  - contradiction.
  - destruct Hin as [-> | Hin].
    + exists [], rest. simpl. left; reflexivity.
    + destruct (IH Hin) as (pre & post & Hc).
      exists (x :: pre), post. simpl. right.
      apply in_map_iff. exists (pre, d, post). split; [reflexivity | assumption].
Qed.

Lemma sortAsc_nil {A : Type} (key : A -> Z) (l : list A) :
  Store.sortAsc key l = [] -> l = [].
Proof.
  destruct l as [|x rest]; [reflexivity|].
  simpl. destruct (Store.sortAsc key rest) as [|y r]; simpl.
  - discriminate.
  - destruct (key x <=? key y); discriminate.
Qed.

(** The head of the sorted list is an element with the lowest key. *)
Lemma sortAsc_head {A : Type} (key : A -> Z) (l : list A) c rest :
  Store.sortAsc key l = c :: rest ->
  In c l /\ forall x, In x l -> key c <= key x.
Proof.
  revert c rest.
  induction l as [|x l IH]; intros c rest Hs; simpl in Hs.
  - discriminate.
  - destruct (Store.sortAsc key l) as [|y r] eqn:Hl; simpl in Hs.
    + apply sortAsc_nil in Hl. subst l.
      inversion Hs; subst. split; [left; reflexivity|].
      intros z [<- | []]. lia.
    + destruct (IH y r eq_refl) as [Hy Hmin].
      destruct (key x <=? key y) eqn:Hle; inversion Hs; subst.
      * apply Z.leb_le in Hle. split; [left; reflexivity|].
        intros z [<- | Hz]; [lia|]. specialize (Hmin z Hz). lia.
      * apply Z.leb_gt in Hle. split; [right; assumption|].
        intros z [<- | Hz]; [lia|]. apply Hmin; assumption.
Qed.

Lemma cursors_filter_first filter docs pre d post rest :
  List.filter (fun c => filter (Store.current c)) (Store.cursors docs)
    = (pre, d, post) :: rest ->
  forall x, In x pre -> filter x = false.
Proof.
  revert pre d post rest.
  induction docs as [|y ys IH]; intros pre d post rest Hf x Hx; simpl in Hf.
  - discriminate.
  - unfold Store.current in Hf at 1. simpl in Hf.
    destruct (filter y) eqn:Hy.
    + inversion Hf; subst. contradiction.
    + rewrite filter_map_swap in Hf.
      destruct (List.filter
                  (fun c => filter (Store.current
                     (match c with (p, z, q) => (y :: p, z, q) end)))
                  (Store.cursors ys)) as [|[[p z] q] more] eqn:Hm;
        simpl in Hf; [discriminate|].
      inversion Hf; subst.
      destruct Hx as [<- | Hx]; [assumption|].
      eapply IH; [|exact Hx].
      erewrite filter_ext; [exact Hm|].
      intros [[p' z'] q']. reflexivity.
Qed.

Lemma findOneAndUpdate_outcome filter update sort docs :
  Outcome filter update sort docs
    (Store.findOneAndUpdate filter update sort docs).
Proof.
  unfold Store.findOneAndUpdate.
  set (matching := List.filter _ _).
  assert (Hnone : matching = [] -> forall d, In d docs -> filter d = false).
  { intros Hm d Hd.
    destruct (cursors_cover docs d Hd) as (pre & post & Hc).
    destruct (filter d) eqn:Hf; [|reflexivity].
    assert (In (pre, d, post) matching) as Hin
        by (apply filter_In; split; [assumption|exact Hf]).
    rewrite Hm in Hin. contradiction. }
  assert (Hsome : forall pre d post, In (pre, d, post) matching ->
                    docs = pre ++ d :: post /\ filter d = true).
  { intros pre d post Hin. apply filter_In in Hin. destruct Hin as [Hc Hf].
    split; [apply cursors_split; assumption | exact Hf]. }
  destruct sort as [key|].
  - destruct (Store.sortAsc _ matching) as [|[[pre d] post] rest] eqn:Hs.
    + apply sortAsc_nil in Hs. constructor. auto.
    + apply sortAsc_head in Hs. destruct Hs as [Hin Hmin].
      destruct (Hsome _ _ _ Hin) as [Hsplit Hf].
      apply Updated; try assumption; [|discriminate].
      intros key' Hk x Hx Hfx. inversion Hk; subst key'.
      destruct (cursors_cover docs x Hx) as (p & q & Hc).
      apply (Hmin (p, x, q)).
      apply filter_In; split; [assumption|exact Hfx].
  - destruct matching as [|[[pre d] post] rest] eqn:Hm.
    + constructor. auto.
    + destruct (Hsome pre d post (or_introl eq_refl)) as [Hsplit Hf].
      apply Updated; try assumption; [discriminate|].
      intros _. eapply cursors_filter_first. exact Hm.
Qed.

Lemma first_match_unique {A : Type} (P : A -> bool) p1 a q1 p2 b q2 :
  p1 ++ a :: q1 = p2 ++ b :: q2 ->
  (forall x, In x p1 -> P x = false) -> P a = true ->
  (forall x, In x p2 -> P x = false) -> P b = true ->
  p1 = p2 /\ a = b /\ q1 = q2.
Proof.
  revert p2.
  induction p1 as [|x p1 IH]; intros [|y p2] Heq H1 Ha H2 Hb; simpl in Heq.
  - injection Heq as -> ->. auto.
  - injection Heq as Hay _. rewrite Hay in Ha.
    rewrite (H2 y (or_introl eq_refl)) in Ha. discriminate.
  - injection Heq as Hxb _. rewrite <- Hxb in Hb.
    rewrite (H1 x (or_introl eq_refl)) in Hb. discriminate.
  - injection Heq as -> Heq.
    destruct (IH p2 Heq) as (-> & -> & ->); auto.
    + intros z Hz. apply H1. right; assumption.
    + intros z Hz. apply H2. right; assumption.
Qed.

(** ** Unique identifiers *)

Lemma ids_app l1 l2 : ids (l1 ++ l2) = ids l1 ++ ids l2.
Proof. apply map_app. Qed.

Lemma in_ids j l : In j l -> In (Job._id j) (ids l).
Proof. apply in_map. Qed.

Lemma hasId_true jobId j :
  MongooseQueue.hasId jobId j = true <-> Job._id j = jobId.
Proof. unfold MongooseQueue.hasId. apply String.eqb_eq. Qed.

Lemma hasId_false jobId j :
  MongooseQueue.hasId jobId j = false <-> Job._id j <> jobId.
Proof. unfold MongooseQueue.hasId. apply String.eqb_neq. Qed.

Lemma unique_before pre j post :
  NoDup (ids (pre ++ j :: post)) ->
  forall x, In x pre -> MongooseQueue.hasId (Job._id j) x = false.
Proof.
  intros Hnd x Hx. apply hasId_false. intros Heq.
  rewrite ids_app in Hnd. simpl in Hnd.
  apply NoDup_remove_2 in Hnd. apply Hnd.
  apply in_or_app. left. rewrite <- Heq. apply in_ids; assumption.
Qed.

Lemma unique_id l a b :
  NoDup (ids l) -> In a l -> In b l -> Job._id a = Job._id b -> a = b.
Proof.
  induction l as [|x l IH]; intros Hnd Ha Hb Heq; [contradiction|].
  simpl in Hnd. inversion Hnd as [|? ? Hx Hl]; subst.
  destruct Ha as [<- | Ha], Hb as [<- | Hb]; auto.
  - exfalso. apply Hx. rewrite Heq. apply in_ids; assumption.
  - exfalso. apply Hx. rewrite <- Heq. apply in_ids; assumption.
Qed.

(** Updating a document in place keeps the identifiers when the update
    keeps [_id]. *)
Lemma ids_update pre d d' post :
  Job._id d' = Job._id d ->
  ids (pre ++ d' :: post) = ids (pre ++ d :: post).
Proof. intros H. rewrite !ids_app. simpl. rewrite H. reflexivity. Qed.

Lemma ids_filter_incl (f : Job.t -> bool) (l : list Job.t) :
  incl (ids (List.filter f l)) (ids l).
Proof.
  intros i Hi. apply in_map_iff in Hi. destruct Hi as (j & <- & Hj).
  apply filter_In in Hj. apply in_ids. tauto.
Qed.

Lemma findOneAndUpdate_ids filter update sort docs :
  (forall d, Job._id (update d) = Job._id d) ->
  ids (fst (Store.findOneAndUpdate filter update sort docs)) = ids docs.
Proof.
  intros Hkeep.
  destruct (findOneAndUpdate_outcome filter update sort docs)
    as [_ | pre d post -> _ _ _]; simpl; [reflexivity|].
  apply ids_update, Hkeep.
Qed.

Lemma byId_cast jobId id update docs :
  Store.castObjectId jobId = Some id ->
  MongooseQueue.byId jobId update docs
  = Store.findOneAndUpdate (MongooseQueue.hasId id) update None docs.
Proof. unfold MongooseQueue.byId. intros ->. reflexivity. Qed.

Lemma byId_refused jobId update docs :
  Store.castObjectId jobId = None ->
  MongooseQueue.byId jobId update docs = (docs, Store.Failed Store.castError).
Proof. unfold MongooseQueue.byId. intros ->. reflexivity. Qed.

Lemma byId_ids jobId update docs :
  (forall d, Job._id (update d) = Job._id d) ->
  ids (fst (MongooseQueue.byId jobId update docs)) = ids docs.
Proof.
  intros Hkeep. unfold MongooseQueue.byId.
  destruct (Store.castObjectId jobId) as [id|]; [|reflexivity].
  apply findOneAndUpdate_ids, Hkeep.
Qed.

Lemma remove_ids_unique filter docs :
  NoDup (ids docs) -> NoDup (ids (fst (Store.remove filter docs))).
Proof.
  simpl. induction docs as [|d docs IH]; intros Hnd; simpl; [constructor|].
  inversion Hnd as [|? ? Hd Hrest]; subst.
  destruct (negb (filter d)); simpl; [|apply IH; assumption].
  constructor; [|apply IH; assumption].
  intros Hin. apply Hd. apply (ids_filter_incl _ _ _ Hin).
Qed.

Lemma existsb_eqb_false fresh (l : list ObjectId) :
  existsb (String.eqb fresh) l = false -> ~ In fresh l.
Proof.
  intros Hnone Hin.
  assert (existsb (String.eqb fresh) l = true) as Habs
      by (apply existsb_exists; exists fresh; split;
          [assumption | apply String.eqb_refl]).
  congruence.
Qed.

Lemma save_ids_unique m now fresh ref docs :
  NoDup (ids docs) -> NoDup (ids (fst (Store.save m now fresh ref docs))).
Proof.
  intros Hnd. unfold Store.save.
  destruct (cast _ ref) as [r|]; [|exact Hnd].
  destruct (negb (Js.present r)); [exact Hnd|].
  destruct (existsb (String.eqb fresh) (ids docs)) eqn:Hdup; [exact Hnd|].
  simpl. rewrite ids_app. simpl.
  apply Permutation_NoDup with (l := fresh :: ids docs).
  - apply Permutation_cons_append.
  - constructor; [|exact Hnd]. apply existsb_eqb_false; exact Hdup.
Qed.

(** Every operation keeps the identifiers of the collection distinct. *)
Lemma perform_ids_unique q call db :
  NoDup (ids (jobs db)) -> NoDup (ids (jobs (perform q call db))).
Proof.
  intros Hnd. destruct call as [now fresh payload | now1 now2 | jobId
                               | jobId message | | ]; simpl.
  - unfold MongooseQueue.add.
    destruct (negb (Js.truthy payload)); [exact Hnd|].
    destruct (negb (Js.truthy (Js.prop payload "_id"))); [exact Hnd|].
    pose proof (save_ids_unique (MongooseQueue.JobModel q) now fresh
                  (Js.prop payload "_id") (jobs db) Hnd) as Hsave.
    destruct (Store.save _ _ _ _ _) as [docs [err | job]]; exact Hsave.
  - unfold MongooseQueue.get.
    pose proof (findOneAndUpdate_ids
                  (MongooseQueue.claimable
                     (MongooseQueue.maxRetries (MongooseQueue.options q)) now1)
                  (Job.claim
                     (now2 + MongooseQueue.blockDuration (MongooseQueue.options q))
                     (MongooseQueue.workerId q) (MongooseQueue.workerHostname q))
                  (Some Job.createdAt) (jobs db) (fun _ => eq_refl)) as Hids.
    destruct (Store.findOneAndUpdate _ _ _ _) as [docs [err | [job|]]];
      simpl in *; rewrite Hids; exact Hnd.
  - unfold MongooseQueue.ack.
    pose proof (byId_ids jobId Job.setDone (jobs db) (fun _ => eq_refl))
      as Hids.
    destruct (MongooseQueue.byId _ _ _) as [docs [err | [job|]]];
      simpl in *; rewrite Hids; exact Hnd.
  - unfold MongooseQueue.error.
    pose proof (byId_ids jobId (Job.setError message) (jobs db)
                  (fun _ => eq_refl)) as Hids.
    destruct (MongooseQueue.byId _ _ _) as [docs [err | [job|]]];
      simpl in *; rewrite Hids; exact Hnd.
  - exact (remove_ids_unique
             (MongooseQueue.cleanable
                (MongooseQueue.maxRetries (MongooseQueue.options q)))
             (jobs db) Hnd).
  - exact (remove_ids_unique (fun _ => true) (jobs db) Hnd).
Qed.

(** X13. Starting from an empty collection, whatever is done through the
    class, by whatever queue instances, no two stored jobs share an [_id]
    (the store refusing to save a document under an [_id] already in the
    collection). *)
Lemma ids_unique_invariant calls payloads :
  NoDup (ids (jobs (run calls (mkDb [] payloads)))).
Proof.
  assert (forall db, NoDup (ids (jobs db)) ->
                     NoDup (ids (jobs (run calls db)))) as Hrun.
  { induction calls as [|[q call] rest IH]; intros db Hnd; simpl.
    - exact Hnd.
    - apply IH, perform_ids_unique, Hnd. }
  apply Hrun. constructor.
Qed.

(** ** The filters, read as propositions *)

Lemma claimable_iff maxRetries now j :
  MongooseQueue.claimable maxRetries now j = true <->
  Job.done j = false /\ Job.blockedUntil j < now /\ Job.retries j <= maxRetries.
Proof.
  unfold MongooseQueue.claimable.
  rewrite !andb_true_iff, negb_true_iff, Z.ltb_lt, Z.leb_le. tauto.
Qed.

Lemma not_claimable_iff maxRetries now j :
  MongooseQueue.claimable maxRetries now j = false <->
  ~ (Job.done j = false /\ Job.blockedUntil j < now
     /\ Job.retries j <= maxRetries).
Proof.
  rewrite <- claimable_iff.
  destruct (MongooseQueue.claimable maxRetries now j); split;
    intros H; try reflexivity; try discriminate.
  exfalso. apply H. reflexivity.
Qed.

Lemma cleanable_iff maxRetries j :
  MongooseQueue.cleanable maxRetries j = true <->
  Job.done j = true \/ Job.retries j > maxRetries.
Proof.
  unfold MongooseQueue.cleanable.
  rewrite orb_true_iff, Z.gtb_gt. tauto.
Qed.

(** ** One [get] *)

Lemma get_outcome q now1 now2 db :
  let mr := MongooseQueue.maxRetries (MongooseQueue.options q) in
  let until := now2 + MongooseQueue.blockDuration (MongooseQueue.options q) in
  ((forall d, In d (jobs db) -> MongooseQueue.claimable mr now1 d = false)
   /\ MongooseQueue.get q now1 now2 db = (db, Ok None))
  \/
  (exists pre d post,
     jobs db = pre ++ d :: post
     /\ MongooseQueue.claimable mr now1 d = true
     /\ (forall x, In x (jobs db) -> MongooseQueue.claimable mr now1 x = true ->
           Job.createdAt d <= Job.createdAt x)
     /\ MongooseQueue.get q now1 now2 db =
          (withJobs db
             (pre ++ Job.claim until (MongooseQueue.workerId q)
                       (MongooseQueue.workerHostname q) d :: post),
           Ok (Some (View.mk (Job._id d)
                       (Store.resolve
                          (documents db (MongooseQueue.payloadModel q))
                          (Job.payload d))
                       until (Job.done d))))).
Proof.
  intros mr until. unfold MongooseQueue.get.
  fold mr. fold until.
  destruct (findOneAndUpdate_outcome
              (MongooseQueue.claimable mr now1)
              (Job.claim until (MongooseQueue.workerId q)
                 (MongooseQueue.workerHostname q))
              (Some Job.createdAt) (jobs db))
    as [Hnone | pre d post Hsplit Hf Hmin _].
  - left. split; [assumption|]. simpl. rewrite withJobs_same. reflexivity.
  - right. exists pre, d, post. repeat split; try assumption.
    intros x Hx Hfx. apply (Hmin Job.createdAt eq_refl x Hx Hfx).
Qed.

(** ** Lookups by [_id] *)

Lemma findOneAndUpdate_by_id update pre j post :
  NoDup (ids (pre ++ j :: post)) ->
  Store.findOneAndUpdate (MongooseQueue.hasId (Job._id j)) update None
    (pre ++ j :: post)
  = (pre ++ update j :: post, Store.Done (Some (update j))).
Proof.
  intros Hnd.
  destruct (findOneAndUpdate_outcome (MongooseQueue.hasId (Job._id j)) update
              None (pre ++ j :: post))
    as [Hnone | pre' d post' Hsplit Hf _ Hfirst].
  - assert (MongooseQueue.hasId (Job._id j) j = false) as Hj
        by (apply Hnone; apply in_elt).
    apply hasId_false in Hj. contradiction.
  - pose proof (unique_before pre j post Hnd) as Hbefore.
    assert (MongooseQueue.hasId (Job._id j) j = true) as Hj
        by (apply hasId_true; reflexivity).
    destruct (first_match_unique (MongooseQueue.hasId (Job._id j))
                pre j post pre' d post' Hsplit Hbefore Hj (Hfirst eq_refl) Hf)
      as (-> & -> & ->).
    reflexivity.
Qed.

Lemma findOneAndUpdate_missing update jobId docs :
  ~ In jobId (ids docs) ->
  Store.findOneAndUpdate (MongooseQueue.hasId jobId) update None docs
  = (docs, Store.Done None).
Proof.
  intros Hmissing.
  destruct (findOneAndUpdate_outcome (MongooseQueue.hasId jobId) update
              None docs)
    as [Hnone | pre d post Hsplit Hf _ _]; [reflexivity|].
  exfalso. apply Hmissing. apply hasId_true in Hf. rewrite <- Hf.
  apply in_ids. rewrite Hsplit. apply in_elt.
Qed.

(** ** Resolving a payload reference *)

Lemma sameId_true_iff a b :
  Js.sameId a b = true <->
  a = b /\ ((exists hex, b = Js.objectId hex)
            \/ (exists s, b = Js.text s)
            \/ (exists n, b = Js.number n)).
Proof.
  split.
  - destruct a, b; simpl; intros H; try discriminate.
    + apply Z.eqb_eq in H. subst. split; [reflexivity|]. right; right; eauto.
    + apply String.eqb_eq in H. subst. split; [reflexivity|]. right; left; eauto.
    + apply String.eqb_eq in H. subst. split; [reflexivity|]. left; eauto.
  - intros [-> [[hex ->] | [[t ->] | [n ->]]]]; simpl.
    + apply String.eqb_refl.
    + apply String.eqb_refl.
    + apply Z.eqb_refl.
Qed.

(** [resolve] gives the first document whose [_id] matches the
    reference, or [null] when none does. *)
Lemma resolve_first docs ref :
  (exists before after,
     docs = before ++ Store.resolve docs ref :: after
     /\ Js.sameId (Js.prop (Store.resolve docs ref) "_id") ref = true
     /\ forall d, In d before -> Js.sameId (Js.prop d "_id") ref = false)
  \/ ((forall d, In d docs -> Js.sameId (Js.prop d "_id") ref = false)
      /\ Store.resolve docs ref = Js.null).
Proof.
  unfold Store.resolve.
  induction docs as [|x docs IH]; simpl.
  - right. split; [intros d []|reflexivity].
  - destruct (Js.sameId (Js.prop x "_id") ref) eqn:Hx.
    + left. exists [], docs. split; [reflexivity|].
      split; [exact Hx | intros d []].
    + destruct IH as [(before & after & Hdocs & Hmatch & Hfirst)
                     | [Hnone Hnull]].
      * left. exists (x :: before), after.
        split; [simpl; f_equal; exact Hdocs|]. split; [exact Hmatch|].
        intros d [<- | Hd]; [exact Hx | apply Hfirst; exact Hd].
      * right. split; [|exact Hnull].
        intros d [<- | Hd]; [exact Hx | apply Hnone; exact Hd].
Qed.

(** ** The claims *)

(** Closes [NoDup (ids ...)] on a collection written out in full. *)
Ltac distinct_ids :=
  simpl; repeat constructor; simpl; intuition discriminate.

(** C2. When some job is claimable at the clock value [now1] of the filter
    (not done, [blockedUntil < now1], [retries <= maxRetries]), [get]
    picks one claimable job [j] that no claimable job precedes in
    [createdAt], replaces it in place by the same job with
    [blockedUntil = now2 + blockDuration] ([now2] the clock value of the
    update), the caller's [workerId] and [workerHostname] and [retries]
    one higher, leaves every other job as it was, and returns the view
    with the job's id, the resolved payload, the new [blockedUntil] and
    [done].  The resolved payload is the first document of the payload
    collection whose [_id] is the job's reference (an ObjectId, a string
    or a number), and [null] when the collection has no such document. *)
Theorem get_claims_oldest q now1 now2 db :
  let opts := MongooseQueue.options q in
  (exists j, In j (jobs db) /\ Job.done j = false
             /\ Job.blockedUntil j < now1
             /\ Job.retries j <= MongooseQueue.maxRetries opts) ->
  exists pre j post resolved,
    jobs db = pre ++ j :: post
    /\ (Job.done j = false /\ Job.blockedUntil j < now1
        /\ Job.retries j <= MongooseQueue.maxRetries opts)
    /\ (forall x, In x (jobs db) ->
          Job.done x = false -> Job.blockedUntil x < now1 ->
          Job.retries x <= MongooseQueue.maxRetries opts ->
          Job.createdAt j <= Job.createdAt x)
    /\ MongooseQueue.get q now1 now2 db =
         (mkDb (pre ++
                  Job.mk (Job._id j)
                    (now2 + MongooseQueue.blockDuration opts)
                    (Some (MongooseQueue.workerHostname q))
                    (Some (MongooseQueue.workerId q))
                    (Job.retries j + 1)
                    (Job.payload j) (Job.done j) (Job.error j)
                    (Job.createdAt j)
                  :: post)
               (documents db),
          Ok (Some (View.mk (Job._id j) resolved
                      (now2 + MongooseQueue.blockDuration opts)
                      false)))
    /\ (let referredBy (d : Js.value) :=
          Js.prop d "_id" = Job.payload j
          /\ ((exists hex, Job.payload j = Js.objectId hex)
              \/ (exists s, Job.payload j = Js.text s)
              \/ (exists n, Job.payload j = Js.number n)) in
        (exists before after,
           documents db (MongooseQueue.payloadModel q)
             = before ++ resolved :: after
           /\ referredBy resolved
           /\ forall d, In d before -> ~ referredBy d)
        \/ ((forall d, In d (documents db (MongooseQueue.payloadModel q)) ->
               ~ referredBy d)
            /\ resolved = Js.null)).
Proof.
  intros opts (j0 & Hin0 & Hd0 & Hb0 & Hr0).
  destruct (get_outcome q now1 now2 db)
    as [[Hnone _] | (pre & j & post & Hsplit & Hc & Hmin & Hget)].
  - specialize (Hnone j0 Hin0). apply not_claimable_iff in Hnone.
    exfalso. apply Hnone. auto.
  - exists pre, j, post,
      (Store.resolve (documents db (MongooseQueue.payloadModel q))
         (Job.payload j)).
    pose proof (proj1 (claimable_iff _ _ _) Hc) as (Hd & Hb & Hr).
    split; [exact Hsplit|]. split; [auto|]. split; [|split].
    + intros x Hx Hdx Hbx Hrx. apply Hmin; [assumption|].
      apply claimable_iff. auto.
    + rewrite Hget. unfold Job.claim, withJobs. rewrite Hd. reflexivity.
    + cbv zeta.
      destruct (resolve_first (documents db (MongooseQueue.payloadModel q))
                  (Job.payload j))
        as [(before & after & Hdocs & Hmatch & Hfirst) | [Hnomatch Hnull]].
      * left. exists before, after. split; [exact Hdocs|].
        split; [apply sameId_true_iff; exact Hmatch|].
        intros d Hd' Href. apply sameId_true_iff in Href.
        rewrite (Hfirst d Hd') in Href. discriminate.
      * right. split; [|exact Hnull].
        intros d Hd' Href. apply sameId_true_iff in Href.
        rewrite (Hnomatch d Hd') in Href. discriminate.
Qed.

Lemma get_claims_oldest_witness :
  let db := mkDb [Sample.job "a" 30; Sample.job "b" 20; Sample.job "c" 20]
                 Sample.documents in
  exists pre j post,
    jobs db = pre ++ j :: post
    /\ (forall x, In x (jobs db) ->
          Job.done x = false -> Job.blockedUntil x < 5000 ->
          Job.retries x <= 5 ->
          Job.createdAt j <= Job.createdAt x)
    /\ snd (MongooseQueue.get Sample.queue 5000 5001 db)
       = Ok (Some (View.mk (Job._id j) Sample.payloadDoc 35001 false)).
Proof.
  intros db.
  destruct (get_claims_oldest Sample.queue 5000 5001 db)
    as (pre & j & post & resolved & Hsplit & _ & Hmin & Hget & Hresolved).
  - exists (Sample.job "a" 30). simpl. repeat split; try lia. left; reflexivity.
  - exists pre, j, post. split; [exact Hsplit|]. split; [exact Hmin|].
    rewrite Hget. simpl. do 3 f_equal.
    assert (Job.payload j = Js.objectId "p1") as Hpayload.
    { assert (In j (jobs db)) as Hj by (rewrite Hsplit; apply in_elt).
      simpl in Hj. destruct Hj as [<- | [<- | [<- | []]]]; reflexivity. }
    cbv zeta in Hresolved. rewrite Hpayload in Hresolved.
    destruct Hresolved
      as [(before & after & Hdocs & _ & _) | [Hnomatch _]].
    + destruct before as [|d [|d' before]]; simpl in Hdocs;
        vm_compute in Hdocs.
      * injection Hdocs as Hdoc _. symmetry. exact Hdoc.
      * injection Hdocs as _ Hrest. destruct after; discriminate.
      * injection Hdocs as _ Hrest. discriminate.
    + exfalso. apply (Hnomatch Sample.payloadDoc).
      * left. reflexivity.
      * split; [reflexivity|]. left. exists "p1". reflexivity.
Defined.

(** C9. When no job is claimable at the clock value of the filter, [get]
    reports no error and no job, and the database is left as it was. *)
Theorem get_empty_when_nothing_claimable q now1 now2 db :
  (forall j, In j (jobs db) ->
     ~ (Job.done j = false /\ Job.blockedUntil j < now1
        /\ Job.retries j <= MongooseQueue.maxRetries (MongooseQueue.options q))) ->
  MongooseQueue.get q now1 now2 db = (db, Ok None).
Proof.
  intros Hnone.
  destruct (get_outcome q now1 now2 db)
    as [[_ Hget] | (pre & j & post & Hsplit & Hc & _)]; [exact Hget|].
  exfalso. apply (Hnone j).
  - rewrite Hsplit. apply in_elt.
  - apply claimable_iff. exact Hc.
Qed.

Lemma get_empty_when_nothing_claimable_witness :
  let db := mkDb [Job.mk "a" 1000 None None 0 (Js.objectId "p1") true None 10;
                  Job.mk "b" 9000 None None 1 (Js.objectId "p1") false None 20;
                  Job.mk "c" 1000 None None 6 (Js.objectId "p1") false None 30]
                 Sample.documents in
  MongooseQueue.get Sample.queue 5000 5000 db = (db, Ok None).
Proof.
  intros db. apply (get_empty_when_nothing_claimable Sample.queue 5000 5000 db).
  intros j Hin (Hd & Hb & Hr). simpl in Hin, Hr.
  destruct Hin as [<- | [<- | [<- | []]]]; simpl in *;
    try discriminate; lia.
Defined.

(** C5. [ack] on the id of a stored job ([jobId] in any form the store
    casts to the job's [_id]: the ObjectId itself or a string spelling
    of it) sets [done] to [true] whatever the job's state was and
    succeeds; a second [ack] on the same id succeeds again, with the same
    view and the same database; [error] after [ack] succeeds, stores the
    message as the job's [error] and [done] stays [true]. *)
Theorem ack_idempotent q jobId pre j post payloads message :
  let acked :=
    Job.mk (Job._id j) (Job.blockedUntil j) (Job.workerHostname j)
           (Job.workerId j) (Job.retries j) (Job.payload j) true
           (Job.error j) (Job.createdAt j) in
  let failed :=
    Job.mk (Job._id j) (Job.blockedUntil j) (Job.workerHostname j)
           (Job.workerId j) (Job.retries j) (Job.payload j) true
           (Some message) (Job.createdAt j) in
  let view :=
    View.mk (Job._id j) (Job.payload j) (Job.blockedUntil j) true in
  Store.castObjectId jobId = Some (Job._id j) ->
  NoDup (ids (pre ++ j :: post)) ->
  MongooseQueue.ack q jobId (mkDb (pre ++ j :: post) payloads)
    = (mkDb (pre ++ acked :: post) payloads, Ok view)
  /\ MongooseQueue.ack q jobId (mkDb (pre ++ acked :: post) payloads)
    = (mkDb (pre ++ acked :: post) payloads, Ok view)
  /\ MongooseQueue.error q jobId message
       (mkDb (pre ++ acked :: post) payloads)
    = (mkDb (pre ++ failed :: post) payloads,
       Ok (ErrorView.mk (Job._id j) (Job.payload j) (Job.blockedUntil j)
             true (Some message))).
Proof.
  intros acked failed view Hcast Hnd.
  assert (NoDup (ids (pre ++ acked :: post))) as Hnd'
      by (rewrite (ids_update pre j acked post eq_refl); exact Hnd).
  unfold MongooseQueue.ack, MongooseQueue.error. simpl jobs.
  rewrite !(byId_cast jobId (Job._id j)) by exact Hcast.
  rewrite (findOneAndUpdate_by_id Job.setDone pre j post Hnd).
  change (Job._id j) with (Job._id acked).
  rewrite (findOneAndUpdate_by_id Job.setDone pre acked post Hnd').
  rewrite (findOneAndUpdate_by_id (Job.setError message) pre acked post Hnd').
  repeat split.
Qed.

Lemma ack_idempotent_witness :
  let q := Sample.queue in
  let stored := Sample.job "57a9a8c526f9c3c114f0000b" 20 in
  let db := mkDb [Sample.job "a" 10; stored] Sample.documents in
  let db' := mkDb [Sample.job "a" 10;
                   Job.mk "57a9a8c526f9c3c114f0000b" 1000 None None 0
                          (Js.objectId "p1") true None 20]
                  Sample.documents in
  let view :=
    View.mk "57a9a8c526f9c3c114f0000b" (Js.objectId "p1") 1000 true in
  (MongooseQueue.ack q (IdObject "57a9a8c526f9c3c114f0000b") db = (db', Ok view)
   /\ MongooseQueue.ack q (IdObject "57a9a8c526f9c3c114f0000b") db'
      = (db', Ok view))
  /\ (MongooseQueue.ack q (IdString "57A9A8C526F9C3C114F0000B") db
      = (db', Ok view)
      /\ MongooseQueue.ack q (IdString "57A9A8C526F9C3C114F0000B") db'
         = (db', Ok view)).
Proof.
  intros q stored db db' view. split.
  - destruct (ack_idempotent q (IdObject "57a9a8c526f9c3c114f0000b")
                [Sample.job "a" 10] stored [] Sample.documents "Job failed")
      as (H1 & H2 & _).
    + reflexivity.
    + distinct_ids.
    + split; [exact H1 | exact H2].
  - destruct (ack_idempotent q (IdString "57A9A8C526F9C3C114F0000B")
                [Sample.job "a" 10] stored [] Sample.documents "Job failed")
      as (H1 & H2 & _).
    + reflexivity.
    + distinct_ids.
    + split; [exact H1 | exact H2].
Defined.

(** C6. For an id that the store casts to an ObjectId no stored job has,
    [ack] and [error] both report the error "Job id invalid, job not
    found."; for an id that the store cannot cast to an ObjectId they
    both report the store's cast error instead.  In both cases the
    database is left as it was. *)
Theorem ack_error_not_found q jobId message db :
  (forall id,
     Store.castObjectId jobId = Some id ->
     ~ In id (ids (jobs db)) ->
     MongooseQueue.ack q jobId db = (db, Err "Job id invalid, job not found.")
     /\ MongooseQueue.error q jobId message db
        = (db, Err "Job id invalid, job not found."))
  /\ (Store.castObjectId jobId = None ->
      MongooseQueue.ack q jobId db = (db, Err Store.castError)
      /\ MongooseQueue.error q jobId message db = (db, Err Store.castError)).
Proof.
  unfold MongooseQueue.ack, MongooseQueue.error. split.
  - intros id Hcast Hmissing.
    rewrite !(byId_cast jobId id) by exact Hcast.
    rewrite !findOneAndUpdate_missing by assumption.
    rewrite withJobs_same. split; reflexivity.
  - intros Hcast. rewrite !byId_refused by exact Hcast.
    rewrite withJobs_same. split; reflexivity.
Qed.

Lemma ack_error_not_found_witness :
  let db := mkDb [Sample.job "57a9a8c526f9c3c114f0000a" 10;
                  Sample.job "57a9a8c526f9c3c114f0000b" 20]
                 Sample.documents in
  (MongooseQueue.ack Sample.queue (IdString "57a9a8c526f9c3c114f00000") db
     = (db, Err "Job id invalid, job not found.")
   /\ MongooseQueue.error Sample.queue (IdString "57a9a8c526f9c3c114f00000")
        "failed" db
      = (db, Err "Job id invalid, job not found."))
  /\ (MongooseQueue.ack Sample.queue (IdString "12312313213123") db
      = (db, Err Store.castError)
      /\ MongooseQueue.error Sample.queue (IdString "12312313213123")
           "This one failed horribly" db
         = (db, Err Store.castError)).
Proof.
  intros db. split.
  - apply (proj1 (ack_error_not_found Sample.queue
                    (IdString "57a9a8c526f9c3c114f00000") "failed" db)
             "57a9a8c526f9c3c114f00000").
    + reflexivity.
    + simpl. intros [H | [H | []]]; discriminate.
  - apply (proj2 (ack_error_not_found Sample.queue
                    (IdString "12312313213123") "This one failed horribly" db)).
    reflexivity.
Defined.

(** C6 as it is written fails: an id that matches no stored job does not
    always give "Job id invalid, job not found.".  The README's own
    [ack('123123123', ...)] hands over a string that is no ObjectId; the
    store refuses to cast it and [ack] and [error] pass that error on. *)
Lemma malformed_id_is_a_cast_error :
  let db := mkDb [Sample.job "57a9a8c526f9c3c114f0000a" 10]
                 Sample.documents in
  ~ In "123123123" (ids (jobs db))
  /\ MongooseQueue.ack Sample.queue (IdString "123123123") db
     = (db, Err Store.castError)
  /\ MongooseQueue.error Sample.queue (IdString "123123123") "failed" db
     = (db, Err Store.castError)
  /\ MongooseQueue.ack Sample.queue (IdString "123123123") db
     <> (db, Err "Job id invalid, job not found.")
  /\ MongooseQueue.error Sample.queue (IdString "123123123") "failed" db
     <> (db, Err "Job id invalid, job not found.").
Proof.
  intros db. split; [simpl; intros [H | []]; discriminate|].
  split; [reflexivity|]. split; [reflexivity|].
  split; discriminate.
Qed.

(** C7. [add] reports "Payload missing." for a payload that is absent
    ([null], or any other falsy value), and "Payload is no valid Mongoose
    document." for a payload without an identity reference [_id]; in both
    cases the database is left as it was.  When [add] succeeds it has
    appended exactly one job, whose payload is the identity reference
    (as the store keeps it under the payload type) and whose other paths
    are at their defaults, and it reports that job's identifier. *)
Theorem add_checks_payload q now fresh payload db :
  (Js.truthy payload = false ->
     MongooseQueue.add q now fresh payload db = (db, Err "Payload missing."))
  /\ (Js.truthy payload = true ->
      Js.truthy (Js.prop payload "_id") = false ->
      MongooseQueue.add q now fresh payload db
      = (db, Err "Payload is no valid Mongoose document."))
  /\ (forall db' jobId,
      MongooseQueue.add q now fresh payload db = (db', Ok jobId) ->
      exists ref,
        cast (payloadType (schema (MongooseQueue.JobModel q)))
             (Js.prop payload "_id") = Some ref
        /\ jobId = fresh
        /\ ~ In fresh (ids (jobs db))
        /\ db' = mkDb (jobs db ++
                         [Job.mk fresh
                            (blockedUntilDefault
                               (schema (MongooseQueue.JobModel q)))
                            None None 0 ref false None now])
                      (documents db)).
Proof.
  unfold MongooseQueue.add. repeat split.
  - intros ->. reflexivity.
  - intros -> ->. reflexivity.
  - intros db' jobId.
    destruct (Js.truthy payload); simpl; [|discriminate].
    destruct (Js.truthy (Js.prop payload "_id")); simpl; [|discriminate].
    unfold Store.save.
    destruct (cast _ _) as [ref|]; [|discriminate].
    destruct (negb (Js.present ref)); [discriminate|].
    destruct (existsb (String.eqb fresh) (ids (jobs db))) eqn:Hdup;
      [discriminate|].
    simpl. intros Hadd. injection Hadd as Hdb Hid.
    exists ref. split; [reflexivity|]. split; [symmetry; exact Hid|].
    split; [apply existsb_eqb_false; exact Hdup | symmetry; exact Hdb].
Qed.

Lemma add_checks_payload_witness :
  MongooseQueue.add Sample.queue 5000 "j1" Js.null Sample.emptyDb
    = (Sample.emptyDb, Err "Payload missing.")
  /\ MongooseQueue.add Sample.queue 5000 "j1"
       (Js.object [("invalid", Js.text "object")]) Sample.emptyDb
     = (Sample.emptyDb, Err "Payload is no valid Mongoose document.")
  /\ (exists ref,
        cast Sample.objectIdType (Js.objectId "p1") = Some ref
        /\ "j1" = "j1"
        /\ ~ In "j1" (ids (jobs Sample.emptyDb))
        /\ fst (MongooseQueue.add Sample.queue 5000 "j1" Sample.payloadDoc
                  Sample.emptyDb)
           = mkDb ([] ++ [Job.mk "j1" 1000 None None 0 ref false None 5000])
                  Sample.documents).
Proof.
  split; [|split].
  - apply (add_checks_payload Sample.queue 5000 "j1" Js.null Sample.emptyDb).
    reflexivity.
  - apply (add_checks_payload Sample.queue 5000 "j1"
             (Js.object [("invalid", Js.text "object")]) Sample.emptyDb);
      reflexivity.
  - destruct (add_checks_payload Sample.queue 5000 "j1" Sample.payloadDoc
                Sample.emptyDb) as (_ & _ & Hok).
    destruct (Hok (fst (MongooseQueue.add Sample.queue 5000 "j1"
                          Sample.payloadDoc Sample.emptyDb)) "j1" eq_refl)
      as (ref & Hc & Hid & Hfresh & Hdb).
    exists ref. repeat split; assumption.
Defined.

(** C8. [clean] succeeds and deletes exactly the jobs that are done or
    whose [retries] is above [maxRetries]: a job is in the collection
    afterwards if and only if it was there before, is not done and has
    [retries <= maxRetries]; the jobs that stay keep their fields and
    their order, and the payload collections are not touched. *)
Theorem clean_selectivity q db :
  let mr := MongooseQueue.maxRetries (MongooseQueue.options q) in
  exists kept,
    MongooseQueue.clean q db = (mkDb kept (documents db), Ok tt)
    /\ (forall j, In j kept <->
          In j (jobs db) /\ ~ (Job.done j = true \/ Job.retries j > mr))
    /\ (forall j, In j (jobs db) ->
          (Job.done j = true \/ Job.retries j > mr) -> ~ In j kept)
    /\ (forall a b before between after,
          kept = before ++ a :: between ++ b :: after ->
          exists before' between' after',
            jobs db = before' ++ a :: between' ++ b :: after').
Proof.
  intros mr.
  exists (List.filter (fun d => negb (MongooseQueue.cleanable mr d)) (jobs db)).
  split; [reflexivity|]. split; [|split].
  - intros j. rewrite filter_In, negb_true_iff, <- cleanable_iff.
    destruct (MongooseQueue.cleanable mr j); intuition congruence.
  - intros j _ Hc Hin. apply filter_In in Hin. destruct Hin as [_ Hk].
    apply cleanable_iff in Hc. rewrite Hc in Hk. discriminate.
  - generalize (jobs db) as docs.
    intros docs a b.
    induction docs as [|x docs IH]; intros before between after Heq; simpl in Heq.
    + destruct before; discriminate.
    + destruct (negb (MongooseQueue.cleanable mr x)).
      * destruct before as [|y before]; simpl in Heq.
        -- injection Heq as -> Heq.
           assert (In b docs) as Hb.
           { assert (In b (List.filter
                       (fun d => negb (MongooseQueue.cleanable mr d)) docs)) as H
                 by (rewrite Heq; apply in_or_app; right; left; reflexivity).
             apply filter_In in H. tauto. }
           apply in_split in Hb. destruct Hb as (l1 & l2 & ->).
           exists [], l1, l2. reflexivity.
        -- injection Heq as -> Heq.
           destruct (IH before between after Heq) as (b' & m' & a' & ->).
           exists (y :: b'), m', a'. reflexivity.
      * destruct (IH before between after Heq) as (b' & m' & a' & ->).
        exists (x :: b'), m', a'. reflexivity.
Qed.

Lemma clean_selectivity_witness :
  let untouched := Sample.job "a" 10 in
  let db :=
    mkDb [untouched;
          Job.mk "b" 1000 None None 0 (Js.objectId "p1") true None 20;
          Job.mk "c" 1000 None None 0 (Js.objectId "p1") true
                 (Some "Error message") 30;
          Job.mk "d" 1000 None None 6 (Js.objectId "p1") false None 40]
         Sample.documents in
  MongooseQueue.clean Sample.queue db
    = (mkDb [untouched] Sample.documents, Ok tt).
Proof.
  intros untouched db.
  destruct (clean_selectivity Sample.queue db) as (kept & Hclean & _).
  rewrite Hclean. vm_compute in Hclean.
  injection Hclean as <-. reflexivity.
Defined.

(** ** The schema factory *)



(** A queue made second, with [payloadRefType: String], still stores its
    payload references under the ObjectId type of the first queue. *)
Example second_queue_keeps_first_type :
  let '(Job1, _) :=
    MongooseQueue.constructor Sample.objectIdType "alpha" 1000 "payload"
      None None None in
  let '(_, second) :=
    MongooseQueue.constructor Sample.objectIdType "alpha" 2000 "payload"
      None
      (Some (MongooseQueue.mkOptionsArg (Some Sample.stringType) None None None))
      Job1 in
  MongooseQueue.payloadRefType (MongooseQueue.options second)
    = Sample.stringType
  /\ payloadType (schema (MongooseQueue.JobModel second))
     = Sample.objectIdType
  /\ snd (MongooseQueue.add second 3000 "j1"
            (Js.object [("_id", Js.text "key")]) Sample.emptyDb)
     = Err "Cast to payload type failed.".
Proof. repeat split. Qed.

(** C4. The default of [blockedUntil] is the value [Date.now()] had when
    the schema was built, not the time at which the job is created: a
    queue made at time [built] (first in its process) gives every job it
    adds [blockedUntil = built], at whatever time [now] the job is added
    ([createdAt = now]). *)
Theorem add_blockedUntil_is_schema_time built now hostname workerId fresh :
  let q :=
    snd (MongooseQueue.constructor Sample.objectIdType hostname built
           "payload" workerId None None) in
  MongooseQueue.add q now fresh Sample.payloadDoc Sample.emptyDb
  = (mkDb [Job.mk fresh built None None 0 (Js.objectId "p1") false None now]
          Sample.documents,
     Ok fresh).
Proof. reflexivity. Qed.

(** At the failing input: schema built at 1000, job added at 5000. *)
Example add_blockedUntil_at_5000 :
  map Job.blockedUntil
      (jobs (fst (MongooseQueue.add Sample.queue 5000 "j1" Sample.payloadDoc
                    Sample.emptyDb))) = [1000]
  /\ map Job.createdAt
       (jobs (fst (MongooseQueue.add Sample.queue 5000 "j1" Sample.payloadDoc
                     Sample.emptyDb))) = [5000].
Proof. split; reflexivity. Qed.

(** ** Sequences of [get] calls *)

Lemma serve_step c rest db :
  let one :=
    MongooseQueue.get (caller c) (filterClock c) (updateClock c) db in
  snd (serve (c :: rest) db) = snd one :: snd (serve rest (fst one)).
Proof.
  intros one. subst one. simpl.
  destruct (MongooseQueue.get _ _ _ db) as [db1 r]. simpl.
  destruct (serve rest db1) as [db2 rs]. reflexivity.
Qed.

(** What one served call does to the collection and to the list of
    claimed ids. *)
Lemma serve_cases c rest db :
  let mr := MongooseQueue.maxRetries (MongooseQueue.options (caller c)) in
  let until :=
    updateClock c + MongooseQueue.blockDuration (MongooseQueue.options (caller c)) in
  ((forall d, In d (jobs db) ->
      MongooseQueue.claimable mr (filterClock c) d = false)
   /\ snd (serve (c :: rest) db) = Ok None :: snd (serve rest db))
  \/
  (exists pre d post d' v,
     jobs db = pre ++ d :: post
     /\ MongooseQueue.claimable mr (filterClock c) d = true
     /\ Job._id d' = Job._id d
     /\ Job.retries d' = Job.retries d + 1
     /\ Job.blockedUntil d' = until
     /\ View.id v = Job._id d
     /\ snd (serve (c :: rest) db)
        = Ok (Some v)
            :: snd (serve rest (mkDb (pre ++ d' :: post) (documents db)))).
Proof.
  intros mr until. rewrite serve_step.
  destruct (get_outcome (caller c) (filterClock c) (updateClock c) db)
    as [[Hnone Hget] | (pre & d & post & Hsplit & Hc & _ & Hget)];
    rewrite Hget; simpl.
  - left. split; [exact Hnone | reflexivity].
  - right.
    exists pre, d, post,
      (Job.claim until (MongooseQueue.workerId (caller c))
         (MongooseQueue.workerHostname (caller c)) d),
      (View.mk (Job._id d)
         (Store.resolve
            (documents db (MongooseQueue.payloadModel (caller c)))
            (Job.payload d))
         until (Job.done d)).
    repeat split; assumption.
Qed.

Lemma in_update_other pre (d d' : Job.t) post j :
  In j (pre ++ d :: post) -> j <> d -> In j (pre ++ d' :: post).
Proof.
  intros Hin Hne. apply in_app_or in Hin. apply in_or_app.
  destruct Hin as [Hin | [Heq | Hin]]; [left; assumption | | right; right; assumption].
  congruence.
Qed.

(** C3 (as the code has it). [get] claims a job only while its [retries]
    counter is at most [maxRetries]: in any sequence of [get] calls with
    that [maxRetries], at whatever clock values, a stored job with
    counter [retries] is returned at most [maxRetries + 1 - retries]
    times (so a job added with [retries = 0] is claimed at most
    [maxRetries + 1] times), and a job whose [retries] is above
    [maxRetries] is never returned. *)
Theorem retries_bound mr calls db j :
  NoDup (ids (jobs db)) ->
  (forall c, In c calls ->
     MongooseQueue.maxRetries (MongooseQueue.options (caller c)) = mr) ->
  In j (jobs db) ->
  (count_occ string_dec (claimedIds (snd (serve calls db))) (Job._id j)
   <= Z.to_nat (mr + 1 - Job.retries j))%nat
  /\ (mr < Job.retries j ->
      ~ In (Job._id j) (claimedIds (snd (serve calls db)))).
Proof.
  intros Hnd Hmr Hin.
  assert (count_occ string_dec (claimedIds (snd (serve calls db))) (Job._id j)
          <= Z.to_nat (mr + 1 - Job.retries j))%nat as Hcount.
  { revert db j Hnd Hin.
    induction calls as [|c rest IH]; intros db j Hnd Hin.
    - simpl. lia.
    - assert (forall c', In c' rest ->
                MongooseQueue.maxRetries (MongooseQueue.options (caller c')) = mr)
        as Hrest by (intros c' Hc'; apply Hmr; right; assumption).
      specialize (IH Hrest).
      destruct (serve_cases c rest db)
        as [[_ Hs] | (pre & d & post & d' & v & Hsplit & Hc & Hid & Hret
                      & _ & Hv & Hs)];
        rewrite Hs; simpl.
      + apply IH; assumption.
      + rewrite Hv.
        assert (NoDup (ids (pre ++ d' :: post))) as Hnd'
            by (rewrite (ids_update pre d d' post Hid), <- Hsplit; exact Hnd).
        destruct (string_dec (Job._id d) (Job._id j)) as [Heq | Hne].
        * assert (j = d) as ->.
          { apply (unique_id (jobs db)); auto.
            rewrite Hsplit. apply in_elt. }
          rewrite (Hmr c (or_introl eq_refl)) in Hc.
          apply claimable_iff in Hc. destruct Hc as (_ & _ & Hle).
          specialize (IH (mkDb (pre ++ d' :: post) (documents db)) d' Hnd'
                         (in_elt d' pre post)).
          rewrite Hid, Hret in IH. lia.
        * apply IH; [exact Hnd'|]. simpl.
          rewrite Hsplit in Hin. apply (in_update_other pre d d' post j Hin).
          congruence. }
  split; [exact Hcount|].
  intros Hgt Hret.
  apply (count_occ_In string_dec) in Hret. lia.
Qed.

Lemma retries_bound_witness :
  let at_ t := mkGetCall Sample.queue t t in
  let calls := [at_ 5000; at_ 40000; at_ 80000; at_ 120000;
                at_ 160000; at_ 200000; at_ 240000; at_ 280000] in
  (count_occ string_dec
     (claimedIds (snd (serve calls (mkDb [Sample.job "a" 10] Sample.documents))))
     "a" <= 6)%nat
  /\ ~ In "b"
       (claimedIds
          (snd (serve calls
                  (mkDb [Job.mk "b" 1000 None None 6 (Js.objectId "p1")
                                false None 10]
                        Sample.documents)))).
Proof.
  intros at_ calls.
  assert (forall c, In c calls ->
            MongooseQueue.maxRetries (MongooseQueue.options (caller c)) = 5)
    as Hmr.
  { intros c Hc. simpl in Hc.
    repeat (destruct Hc as [<- | Hc]; [reflexivity|]). contradiction. }
  split.
  - apply (proj1 (retries_bound 5 calls
                    (mkDb [Sample.job "a" 10] Sample.documents)
                    (Sample.job "a" 10)
                    ltac:(distinct_ids)
                    Hmr (or_introl eq_refl))).
  - apply (proj2 (retries_bound 5 calls
                    (mkDb [Job.mk "b" 1000 None None 6 (Js.objectId "p1")
                                  false None 10] Sample.documents)
                    (Job.mk "b" 1000 None None 6 (Js.objectId "p1")
                            false None 10)
                    ltac:(distinct_ids)
                    Hmr (or_introl eq_refl))).
    simpl. lia.
Defined.

(** C3 as it is written fails: with the default [maxRetries = 5], a job
    that has been claimed five times is claimed a sixth time. *)
Lemma claimed_again_at_maxRetries :
  let at_ t := mkGetCall Sample.queue t t in
  let five := [at_ 5000; at_ 40000; at_ 80000; at_ 120000; at_ 160000] in
  let db0 := mkDb [Sample.job "a" 10] Sample.documents in
  let db5 := fst (serve five db0) in
  MongooseQueue.maxRetries (MongooseQueue.options Sample.queue) = 5
  /\ claimedIds (snd (serve five db0)) = ["a"; "a"; "a"; "a"; "a"]
  /\ map Job.retries (jobs db5) = [5]
  /\ claimedId (snd (MongooseQueue.get Sample.queue 200000 200000 db5))
     = Some "a"
  /\ map Job.retries
       (jobs (fst (MongooseQueue.get Sample.queue 200000 200000 db5))) = [6].
Proof. vm_compute. repeat split. Qed.

(** ** Calls within one blocking window *)

Lemma filter_none {A : Type} (f : A -> bool) (l : list A) :
  (forall x, In x l -> f x = false) -> List.filter f l = [].
Proof.
  induction l as [|x l IH]; intros H; simpl; [reflexivity|].
  rewrite (H x (or_introl eq_refl)). apply IH.
  intros y Hy. apply H. right; assumption.
Qed.

Lemma claimable_later mr now later j :
  now <= later ->
  MongooseQueue.claimable mr now j = true ->
  MongooseQueue.claimable mr later j = true.
Proof.
  intros Hle H. apply claimable_iff in H. apply claimable_iff.
  destruct H as (Hd & Hb & Hr). repeat split; try assumption. lia.
Qed.

(** C1 (as the code has it). Take [N] calls of [get], served one after
    another by the atomic find-and-update in any order, all with the same
    [maxRetries], whose clock values lie in one blocking window: there is
    an instant [hi] such that every call read its filter clock at or
    before [hi], no call blocks a job until a time before [hi]
    ([hi <= updateClock + blockDuration]), and every job that is
    claimable at [hi] is already unblocked at every filter clock.  Then
    no job id is returned twice, every returned id is the id of one of
    the [M] jobs claimable at [hi], exactly [min N M] calls return a job
    and the other [N - min N M] calls return empty, without error. *)
Theorem gets_in_one_window_claim_distinct mr hi calls db :
  NoDup (ids (jobs db)) ->
  (forall c, In c calls ->
     MongooseQueue.maxRetries (MongooseQueue.options (caller c)) = mr
     /\ filterClock c <= hi
     /\ hi <= updateClock c
              + MongooseQueue.blockDuration (MongooseQueue.options (caller c))) ->
  (forall c j, In c calls -> In j (jobs db) ->
     Job.done j = false -> Job.retries j <= mr -> Job.blockedUntil j < hi ->
     Job.blockedUntil j < filterClock c) ->
  let results := snd (serve calls db) in
  let claimableJobs := List.filter (MongooseQueue.claimable mr hi) (jobs db) in
  let N := List.length calls in
  let M := List.length claimableJobs in
  NoDup (claimedIds results)
  /\ incl (claimedIds results) (ids claimableJobs)
  /\ List.length (claimedIds results) = Nat.min N M
  /\ List.length (List.filter isEmpty results) = (N - Nat.min N M)%nat.
Proof.
  revert db.
  induction calls as [|c rest IH]; intros db Hnd Hcalls Hready; cbv zeta.
  - simpl. repeat split; [constructor | intros i []].
  - destruct (Hcalls c (or_introl eq_refl)) as (Hmr & Hlo & Hhi).
    assert (forall c', In c' rest ->
              MongooseQueue.maxRetries (MongooseQueue.options (caller c')) = mr
              /\ filterClock c' <= hi
              /\ hi <= updateClock c'
                       + MongooseQueue.blockDuration
                           (MongooseQueue.options (caller c')))
      as Hrest by (intros c' Hc'; apply Hcalls; right; assumption).
    destruct (serve_cases c rest db)
      as [[Hnone Hs] | (pre & d & post & d' & v & Hsplit & Hc & Hid & _
                        & Hblocked & Hv & Hs)];
      rewrite Hs; rewrite Hmr in *.
    + (* nothing claimable at this call, hence nothing claimable at [hi] *)
      assert (List.filter (MongooseQueue.claimable mr hi) (jobs db) = [])
        as Hempty.
      { apply filter_none. intros j Hj.
        destruct (MongooseQueue.claimable mr hi j) eqn:Hcl; [|reflexivity].
        pose proof (proj1 (claimable_iff _ _ _) Hcl) as (Hd & Hb & Hr).
        assert (MongooseQueue.claimable mr (filterClock c) j = true) as Habs.
        { apply claimable_iff. repeat split; try assumption.
          apply (Hready c j); auto. left; reflexivity. }
        rewrite (Hnone j Hj) in Habs. discriminate. }
      cbv zeta in IH.
      destruct (IH db Hnd Hrest) as (IH1 & IH2 & IH3 & IH4).
      { intros c' j Hc'. apply Hready. right; assumption. }
      rewrite Hempty in *. simpl in *.
      repeat split; try assumption; lia.
    + (* [d] is claimed and is no longer claimable at [hi] *)
      assert (MongooseQueue.claimable mr hi d = true) as Hd
          by (apply (claimable_later mr (filterClock c)); assumption).
      assert (MongooseQueue.claimable mr hi d' = false) as Hd'.
      { apply not_claimable_iff. intros (_ & Hb & _). lia. }
      assert (NoDup (ids (pre ++ d' :: post))) as Hnd'
          by (rewrite (ids_update pre d d' post Hid), <- Hsplit; exact Hnd).
      cbv zeta in IH.
      destruct (IH (mkDb (pre ++ d' :: post) (documents db)) Hnd' Hrest)
        as (IH1 & IH2 & IH3 & IH4).
      { intros c' j Hc' Hj Hdone Hret Hb. simpl in Hj.
        apply (Hready c' j); auto; [right; assumption|].
        rewrite Hsplit. apply (in_update_other pre d' d post j Hj).
        intros ->. lia. }
      simpl jobs in *. rewrite Hsplit.
      rewrite filter_app in *. simpl List.filter in *.
      rewrite Hd. rewrite Hd' in *.
      rewrite Hsplit, ids_app in Hnd. simpl in Hnd.
      cbn [claimedIds claimedId isEmpty List.filter]. rewrite Hv.
      repeat split.
      * constructor; [|exact IH1].
        intros Hin. apply IH2 in Hin.
        apply (NoDup_remove_2 _ _ _ Hnd).
        rewrite ids_app in Hin. apply in_app_or in Hin. apply in_or_app.
        destruct Hin as [Hin | Hin]; [left | right];
          apply (ids_filter_incl _ _ _ Hin).
      * intros i [<- | Hi].
        -- rewrite ids_app. apply in_or_app. right. left. reflexivity.
        -- apply IH2 in Hi. rewrite ids_app in *. simpl.
           apply in_app_or in Hi. apply in_or_app.
           destruct Hi as [Hi | Hi]; [left | right; right]; assumption.
      * cbn [List.length]. rewrite IH3, !length_app.
        cbn [List.length]. lia.
      * rewrite IH4, !length_app. cbn [List.length]. lia.
Qed.

Lemma gets_in_one_window_claim_distinct_witness :
  let calls := [mkGetCall (Sample.worker "alpha" "w1" None) 5000 5000;
                mkGetCall (Sample.worker "beta" "w2" None) 5003 5004;
                mkGetCall (Sample.worker "gamma" "w3" None) 5001 5001] in
  let db := mkDb [Sample.job "a" 10;
                  Job.mk "b" 1000 None None 0 (Js.objectId "p1") true None 20;
                  Sample.job "c" 30]
                 Sample.documents in
  let results := snd (serve calls db) in
  NoDup (claimedIds results)
  /\ List.length (claimedIds results) = 2%nat
  /\ List.length (List.filter isEmpty results) = 1%nat.
Proof.
  intros calls db results.
  destruct (gets_in_one_window_claim_distinct 5 5003 calls db)
    as (Hdistinct & _ & Hclaimed & Hempty).
  - distinct_ids.
  - intros c Hc. simpl in Hc.
    repeat (destruct Hc as [<- | Hc]; [simpl; lia|]). contradiction.
  - intros c j Hc Hj _ _ _. simpl in Hc, Hj.
    repeat (destruct Hc as [<- | Hc];
            [repeat (destruct Hj as [<- | Hj]; [simpl; lia|]); contradiction|]).
    contradiction.
  - split; [exact Hdistinct|]. split; [exact Hclaimed | exact Hempty].
Defined.

(** C1 as it is written fails: the atomic step alone does not keep two
    calls from returning the same job.  With [blockDuration: 10], a call
    that read its clock at 5000 and one that read it at 5020 are served
    one after the other and both return job "a", the only claimable job;
    no call returns empty. *)
Lemma double_claim_outside_window :
  let calls :=
    [mkGetCall (Sample.worker "alpha" "w1" (Sample.blockFor 10)) 5000 5000;
     mkGetCall (Sample.worker "beta" "w2" (Sample.blockFor 10)) 5020 5020] in
  let db := mkDb [Sample.job "a" 10] Sample.documents in
  let results := snd (serve calls db) in
  NoDup (ids (jobs db))
  /\ List.length (List.filter (MongooseQueue.claimable 5 5000) (jobs db)) = 1%nat
  /\ List.length (List.filter (MongooseQueue.claimable 5 5020) (jobs db)) = 1%nat
  /\ claimedIds results = ["a"; "a"]
  /\ List.filter isEmpty results = []
  /\ ~ NoDup (claimedIds results).
Proof.
  intros calls db results.
  assert (claimedIds results = ["a"; "a"]) as Hclaimed by reflexivity.
  split; [distinct_ids|].
  split; [reflexivity|]. split; [reflexivity|].
  split; [exact Hclaimed|]. split; [reflexivity|].
  rewrite Hclaimed. intros Hnd. inversion Hnd as [|? ? Hnotin _]; subst.
  apply Hnotin. left; reflexivity.
Qed.

(** * Further properties of the class *)

(** ** [reset], [ack] and [error] *)

(** X1. [reset] succeeds and leaves the queue collection empty whatever it
    held, without touching the payload collections; afterwards every
    [get] returns empty, and every [ack] and [error] fails: with "Job id
    invalid, job not found." for an id the store can cast to an ObjectId,
    with the store's cast error for one it cannot. *)
Theorem reset_empties q db :
  let failure jobId :=
    match Store.castObjectId jobId with
    | Some _ => "Job id invalid, job not found."
    | None => Store.castError
    end in
  MongooseQueue.reset q db = (mkDb [] (documents db), Ok tt)
  /\ (forall q' now1 now2,
        MongooseQueue.get q' now1 now2 (fst (MongooseQueue.reset q db))
        = (mkDb [] (documents db), Ok None))
  /\ (forall q' jobId,
        MongooseQueue.ack q' jobId (fst (MongooseQueue.reset q db))
        = (mkDb [] (documents db), Err (failure jobId)))
  /\ (forall q' jobId message,
        MongooseQueue.error q' jobId message (fst (MongooseQueue.reset q db))
        = (mkDb [] (documents db), Err (failure jobId))).
Proof.
  intros failure.
  assert (MongooseQueue.reset q db = (mkDb [] (documents db), Ok tt)) as Hreset.
  { unfold MongooseQueue.reset, Store.remove, withJobs.
    rewrite (filter_none (fun d : Job.t => negb true) (jobs db));
      [reflexivity | intros; reflexivity]. }
  rewrite Hreset. subst failure.
  split; [reflexivity|]. split; [reflexivity|].
  split; intros; unfold MongooseQueue.ack, MongooseQueue.error,
                  MongooseQueue.byId;
    destruct (Store.castObjectId jobId); reflexivity.
Qed.

Lemma reset_empties_witness :
  let db := mkDb [Sample.job "57a9a8c526f9c3c114f0000a" 10]
                 Sample.documents in
  let emptied := fst (MongooseQueue.reset Sample.queue db) in
  snd (MongooseQueue.ack Sample.queue (IdString "57a9a8c526f9c3c114f0000a")
         emptied)
    = Err "Job id invalid, job not found."
  /\ snd (MongooseQueue.ack Sample.queue (IdString "123123123") emptied)
     = Err Store.castError.
Proof.
  intros db emptied.
  destruct (reset_empties Sample.queue db) as (_ & _ & Hack & _).
  split.
  - unfold emptied.
    rewrite (Hack Sample.queue (IdString "57a9a8c526f9c3c114f0000a")).
    reflexivity.
  - unfold emptied. rewrite (Hack Sample.queue (IdString "123123123")).
    reflexivity.
Defined.

(** X2. [ack] and [error] succeed exactly when the store casts [jobId] to
    the [_id] of a stored job.  When they fail the database is the one
    they were given, and the error is the store's cast error if [jobId]
    cannot be cast to an ObjectId, and "Job id invalid, job not found."
    if it is cast to an ObjectId that no stored job has. *)
Theorem ack_succeeds_iff_stored q jobId message db :
  let stored :=
    exists id, Store.castObjectId jobId = Some id /\ In id (ids (jobs db)) in
  let failure db' m :=
    db' = db
    /\ ((Store.castObjectId jobId = None /\ m = Store.castError)
        \/ (exists id, Store.castObjectId jobId = Some id
                       /\ ~ In id (ids (jobs db))
                       /\ m = "Job id invalid, job not found.")) in
  (stored <-> exists v, snd (MongooseQueue.ack q jobId db) = Ok v)
  /\ (stored
      <-> exists v, snd (MongooseQueue.error q jobId message db) = Ok v)
  /\ (forall db' m,
        MongooseQueue.ack q jobId db = (db', Err m) -> failure db' m)
  /\ (forall db' m,
        MongooseQueue.error q jobId message db = (db', Err m) ->
        failure db' m).
Proof.
  intros stored failure. subst stored failure.
  unfold MongooseQueue.ack, MongooseQueue.error, MongooseQueue.byId.
  destruct (Store.castObjectId jobId) as [id|] eqn:Hcast.
  - destruct (findOneAndUpdate_outcome (MongooseQueue.hasId id) Job.setDone
                None (jobs db)) as [Hnone | pre d post Hsplit Hf _ _];
    destruct (findOneAndUpdate_outcome (MongooseQueue.hasId id)
                (Job.setError message) None (jobs db))
      as [Hnone' | pre' d' post' Hsplit' Hf' _ _]; simpl.
    + assert (~ In id (ids (jobs db))) as Hmissing.
      { intros Hin. apply in_map_iff in Hin. destruct Hin as (j & Hid & Hj).
        apply hasId_true in Hid. rewrite (Hnone j Hj) in Hid. discriminate. }
      rewrite withJobs_same.
      repeat split;
        try (intros (id' & Hid' & Hin); injection Hid' as <-; contradiction);
        try (intros [v Hv]; discriminate);
        try (injection H as <- _; reflexivity);
        try (right; exists id; injection H as _ <-; auto).
    + rewrite (Hnone d' (eq_ind_r (fun l => In d' l) (in_elt d' pre' post')
                           Hsplit')) in Hf'. discriminate.
    + rewrite (Hnone' d (eq_ind_r (fun l => In d l) (in_elt d pre post)
                           Hsplit)) in Hf. discriminate.
    + assert (In id (ids (jobs db))) as Hin.
      { apply hasId_true in Hf. rewrite <- Hf, Hsplit. apply in_ids, in_elt. }
      repeat split; try (intros _; eexists; reflexivity);
        try (intros _; exists id; auto); discriminate.
  - simpl. rewrite withJobs_same.
    repeat split;
      try (intros (id' & Hid' & _); discriminate);
      try (intros [v Hv]; discriminate);
      try (injection H as <- _; reflexivity);
      try (left; injection H as _ <-; auto).
Qed.

Lemma ack_succeeds_iff_stored_witness :
  let db := mkDb [Sample.job "57a9a8c526f9c3c114f0000a" 10;
                  Sample.job "57a9a8c526f9c3c114f0000b" 20]
                 Sample.documents in
  (exists v,
     snd (MongooseQueue.ack Sample.queue (IdString "57A9A8C526F9C3C114F0000B")
            db) = Ok v)
  /\ ~ (exists v, snd (MongooseQueue.ack Sample.queue (IdString "z") db) = Ok v)
  /\ Store.castObjectId (IdString "z") = None.
Proof.
  intros db.
  destruct (ack_succeeds_iff_stored Sample.queue
              (IdString "57A9A8C526F9C3C114F0000B") "failed" db)
    as ((Hto & _) & _).
  destruct (ack_succeeds_iff_stored Sample.queue (IdString "z") "failed" db)
    as ((_ & Hfrom) & _ & Hfail & _).
  split; [|split].
  - apply Hto. exists "57a9a8c526f9c3c114f0000b".
    split; [reflexivity|]. simpl. right; left; reflexivity.
  - intros Hex. apply Hfrom in Hex. destruct Hex as (id & Hcast & _).
    discriminate.
  - destruct (Hfail db Store.castError eq_refl)
      as (_ & [[Hrefused _] | (id & Hcast & _)]);
      [exact Hrefused | discriminate].
Defined.

(** X3. [error] on a stored job, whatever its state, sets [done] and
    stores the message; a second [error] replaces the message by the new
    one; an [ack] after [error] succeeds, changes nothing and keeps the
    stored message.  [jobId] is the job's id in any form the store casts
    to its [_id]. *)
Theorem error_keeps_latest_message q jobId pre j post payloads first second :
  let failedWith message :=
    Job.mk (Job._id j) (Job.blockedUntil j) (Job.workerHostname j)
           (Job.workerId j) (Job.retries j) (Job.payload j) true
           (Some message) (Job.createdAt j) in
  let viewWith message :=
    ErrorView.mk (Job._id j) (Job.payload j) (Job.blockedUntil j) true
                 (Some message) in
  Store.castObjectId jobId = Some (Job._id j) ->
  NoDup (ids (pre ++ j :: post)) ->
  MongooseQueue.error q jobId first (mkDb (pre ++ j :: post) payloads)
    = (mkDb (pre ++ failedWith first :: post) payloads, Ok (viewWith first))
  /\ MongooseQueue.error q jobId second
       (mkDb (pre ++ failedWith first :: post) payloads)
     = (mkDb (pre ++ failedWith second :: post) payloads, Ok (viewWith second))
  /\ MongooseQueue.ack q jobId
       (mkDb (pre ++ failedWith first :: post) payloads)
     = (mkDb (pre ++ failedWith first :: post) payloads,
        Ok (View.mk (Job._id j) (Job.payload j) (Job.blockedUntil j) true)).
Proof.
  intros failedWith viewWith Hcast Hnd.
  assert (NoDup (ids (pre ++ failedWith first :: post))) as Hnd'
      by (rewrite (ids_update pre j (failedWith first) post eq_refl); exact Hnd).
  unfold MongooseQueue.ack, MongooseQueue.error. simpl jobs.
  rewrite !(byId_cast jobId (Job._id j)) by exact Hcast.
  rewrite (findOneAndUpdate_by_id (Job.setError first) pre j post Hnd).
  change (Job._id j) with (Job._id (failedWith first)).
  rewrite (findOneAndUpdate_by_id (Job.setError second) pre
             (failedWith first) post Hnd').
  rewrite (findOneAndUpdate_by_id Job.setDone pre (failedWith first) post Hnd').
  repeat split.
Qed.

Lemma error_keeps_latest_message_witness :
  let stored message :=
    mkDb [Sample.job "a" 10;
          Job.mk "b" 1000 None None 0 (Js.objectId "p1") true (Some message) 20]
         Sample.documents in
  MongooseQueue.error Sample.queue (IdObject "b") "timeout"
    (mkDb [Sample.job "a" 10; Sample.job "b" 20] Sample.documents)
  = (stored "timeout",
     Ok (ErrorView.mk "b" (Js.objectId "p1") 1000 true (Some "timeout")))
  /\ fst (MongooseQueue.error Sample.queue (IdObject "b") "crash"
            (stored "timeout"))
     = stored "crash".
Proof.
  intros stored.
  destruct (error_keeps_latest_message Sample.queue (IdObject "b")
              [Sample.job "a" 10] (Sample.job "b" 20) [] Sample.documents
              "timeout" "crash")
    as (H1 & H2 & _).
  - reflexivity.
  - distinct_ids.
  - split; [exact H1|]. unfold stored. simpl in H2. rewrite H2. reflexivity.
Defined.

(** ** What the operations leave in place *)

(** X4. [get], [ack] and [error] never add or remove a job: the
    identifiers of the collection, in order, are the same after the call,
    whether it found a job or not.  A claimed job stays in the collection
    until [clean] or [reset] deletes it. *)
Theorem get_ack_error_keep_every_job q now1 now2 jobId message db :
  ids (jobs (fst (MongooseQueue.get q now1 now2 db))) = ids (jobs db)
  /\ ids (jobs (fst (MongooseQueue.ack q jobId db))) = ids (jobs db)
  /\ ids (jobs (fst (MongooseQueue.error q jobId message db))) = ids (jobs db).
Proof.
  split; [|split].
  - unfold MongooseQueue.get.
    pose proof (findOneAndUpdate_ids
                  (MongooseQueue.claimable
                     (MongooseQueue.maxRetries (MongooseQueue.options q)) now1)
                  (Job.claim
                     (now2 + MongooseQueue.blockDuration (MongooseQueue.options q))
                     (MongooseQueue.workerId q) (MongooseQueue.workerHostname q))
                  (Some Job.createdAt) (jobs db) (fun _ => eq_refl)) as Hids.
    destruct (Store.findOneAndUpdate _ _ _ _) as [docs [err | [job|]]];
      exact Hids.
  - unfold MongooseQueue.ack.
    pose proof (byId_ids jobId Job.setDone (jobs db) (fun _ => eq_refl))
      as Hids.
    destruct (MongooseQueue.byId _ _ _) as [docs [err | [job|]]]; exact Hids.
  - unfold MongooseQueue.error.
    pose proof (byId_ids jobId (Job.setError message) (jobs db)
                  (fun _ => eq_refl)) as Hids.
    destruct (MongooseQueue.byId _ _ _) as [docs [err | [job|]]]; exact Hids.
Qed.

(** ** [clean] against [get] *)

(** X5. [clean] and [get] use complementary filters: a job survives
    [clean] exactly when it was stored and some [get] with the same
    [maxRetries] could still claim it at some clock value.  Hence a second
    [clean] right after the first deletes nothing. *)
Theorem clean_keeps_what_get_can_claim q db :
  let mr := MongooseQueue.maxRetries (MongooseQueue.options q) in
  let cleaned := fst (MongooseQueue.clean q db) in
  (forall j, In j (jobs cleaned) <->
     In j (jobs db) /\ exists now, MongooseQueue.claimable mr now j = true)
  /\ fst (MongooseQueue.clean q cleaned) = cleaned.
Proof.
  intros mr cleaned.
  assert (forall j, negb (MongooseQueue.cleanable mr j) = true <->
                    exists now, MongooseQueue.claimable mr now j = true)
    as Hcomplement.
  { intros j. rewrite negb_true_iff.
    unfold MongooseQueue.cleanable, MongooseQueue.claimable. split.
    - intros Hkeep. apply orb_false_iff in Hkeep. destruct Hkeep as [Hd Hr].
      exists (Job.blockedUntil j + 1).
      rewrite Hd. simpl. rewrite andb_true_r.
      apply andb_true_iff. split; [apply Z.ltb_lt; lia|].
      apply Z.leb_le. rewrite Z.gtb_ltb in Hr. apply Z.ltb_ge in Hr. exact Hr.
    - intros [now Hc]. rewrite !andb_true_iff, negb_true_iff in Hc.
      destruct Hc as [[_ Hr] Hd]. rewrite Hd. simpl.
      rewrite Z.gtb_ltb. apply Z.ltb_ge. apply Z.leb_le. exact Hr. }
  split.
  - intros j. subst cleaned. unfold MongooseQueue.clean. simpl.
    fold mr. rewrite filter_In, Hcomplement. reflexivity.
  - subst cleaned. unfold MongooseQueue.clean, withJobs. simpl. f_equal.
    fold mr. induction (jobs db) as [|d docs IH]; simpl; [reflexivity|].
    destruct (negb (MongooseQueue.cleanable mr d)) eqn:Hd; simpl;
      [rewrite Hd; f_equal|]; exact IH.
Qed.

(** ** Sequences of [get] calls, continued *)

(** One served call, with the job it claims written out. *)
Lemma serve_claim_cases c rest db :
  let mr := MongooseQueue.maxRetries (MongooseQueue.options (caller c)) in
  let claim :=
    Job.claim
      (updateClock c + MongooseQueue.blockDuration (MongooseQueue.options (caller c)))
      (MongooseQueue.workerId (caller c))
      (MongooseQueue.workerHostname (caller c)) in
  ((forall d, In d (jobs db) ->
      MongooseQueue.claimable mr (filterClock c) d = false)
   /\ serve (c :: rest) db
      = (fst (serve rest db), Ok None :: snd (serve rest db)))
  \/
  (exists pre d post v,
     jobs db = pre ++ d :: post
     /\ MongooseQueue.claimable mr (filterClock c) d = true
     /\ (forall x, In x (jobs db) ->
           MongooseQueue.claimable mr (filterClock c) x = true ->
           Job.createdAt d <= Job.createdAt x)
     /\ View.id v = Job._id d
     /\ serve (c :: rest) db
        = (fst (serve rest (mkDb (pre ++ claim d :: post) (documents db))),
           Ok (Some v)
             :: snd (serve rest (mkDb (pre ++ claim d :: post) (documents db))))).
Proof.
  intros mr claim. simpl serve.
  destruct (get_outcome (caller c) (filterClock c) (updateClock c) db)
    as [[Hnone Hget] | (pre & d & post & Hsplit & Hc & Hmin & Hget)];
    rewrite Hget.
  - left. split; [exact Hnone|]. destruct (serve rest db); reflexivity.
  - right. exists pre, d, post.
    eexists. split; [exact Hsplit|]. split; [exact Hc|]. split; [exact Hmin|].
    split; [|unfold withJobs; destruct (serve rest _); reflexivity].
    reflexivity.
Qed.

(** A job that no call of the sequence can claim is never returned and is
    still stored, as it was, after the sequence. *)
Lemma never_claimed calls db j :
  NoDup (ids (jobs db)) ->
  In j (jobs db) ->
  (forall c, In c calls ->
     MongooseQueue.claimable
       (MongooseQueue.maxRetries (MongooseQueue.options (caller c)))
       (filterClock c) j = false) ->
  ~ In (Job._id j) (claimedIds (snd (serve calls db)))
  /\ In j (jobs (fst (serve calls db))).
Proof.
  revert db.
  induction calls as [|c rest IH]; intros db Hnd Hin Hblocked.
  - simpl. split; [intros [] | exact Hin].
  - assert (forall c', In c' rest ->
              MongooseQueue.claimable
                (MongooseQueue.maxRetries (MongooseQueue.options (caller c')))
                (filterClock c') j = false)
      as Hrest by (intros c' Hc'; apply Hblocked; right; assumption).
    destruct (serve_claim_cases c rest db)
      as [[_ Hs] | (pre & d & post & v & Hsplit & Hc & _ & Hv & Hs)];
      rewrite Hs; simpl.
    + apply IH; assumption.
    + rewrite Hv.
      assert (j <> d) as Hne
          by (intros ->; rewrite (Hblocked c (or_introl eq_refl)) in Hc;
              discriminate).
      rewrite Hsplit in Hin, Hnd.
      match goal with
      | |- context [mkDb (pre ++ ?x :: post) _] => set (d' := x) in *
      end.
      destruct (IH (mkDb (pre ++ d' :: post) (documents db))) as [IH1 IH2];
        try exact Hrest.
      * simpl. rewrite (ids_update pre d d' post eq_refl). exact Hnd.
      * simpl. apply (in_update_other pre d d' post j Hin Hne).
      * split; [|exact IH2].
        intros [Heq | Hclaimed]; [|exact (IH1 Hclaimed)].
        apply Hne. symmetry.
        apply (unique_id (pre ++ d :: post)); auto. apply in_elt.
Qed.

(** X6. Once a job is acknowledged or reported as failed, no [get] returns
    it again: in any later sequence of [get] calls, at any clock values
    and from any queue instance, its id is not among the claimed ones.
    [jobId] is the job's id in any form the store casts to its [_id]. *)
Theorem finished_job_is_not_returned q jobId id message calls db :
  Store.castObjectId jobId = Some id ->
  NoDup (ids (jobs db)) ->
  In id (ids (jobs db)) ->
  ~ In id
      (claimedIds (snd (serve calls (fst (MongooseQueue.ack q jobId db)))))
  /\ ~ In id
         (claimedIds
            (snd (serve calls (fst (MongooseQueue.error q jobId message db))))).
Proof.
  intros Hcast Hnd Hin.
  apply in_map_iff in Hin. destruct Hin as (j & <- & Hj).
  apply in_split in Hj. destruct Hj as (pre & post & Hsplit).
  assert (forall j' : Job.t, Job.done j' = true -> forall c : GetCall,
            MongooseQueue.claimable
              (MongooseQueue.maxRetries (MongooseQueue.options (caller c)))
              (filterClock c) j' = false) as Hdone.
  { intros j' Hd c. apply not_claimable_iff. intros (Hundone & _). congruence. }
  unfold MongooseQueue.ack, MongooseQueue.error.
  rewrite !(byId_cast jobId (Job._id j)) by exact Hcast.
  rewrite Hsplit in *.
  rewrite !findOneAndUpdate_by_id by exact Hnd. simpl.
  split.
  - apply (never_claimed calls (mkDb (pre ++ Job.setDone j :: post) (documents db))
             (Job.setDone j)).
    + simpl. rewrite (ids_update pre j (Job.setDone j) post eq_refl).
      exact Hnd.
    + apply in_elt.
    + intros c _. apply Hdone. reflexivity.
  - apply (never_claimed calls
             (mkDb (pre ++ Job.setError message j :: post) (documents db))
             (Job.setError message j)).
    + simpl. rewrite (ids_update pre j (Job.setError message j) post eq_refl).
      exact Hnd.
    + apply in_elt.
    + intros c _. apply Hdone. reflexivity.
Qed.

Lemma finished_job_is_not_returned_witness :
  let db := mkDb [Sample.job "a" 10; Sample.job "b" 20] Sample.documents in
  let calls := [mkGetCall Sample.queue 5000 5000;
                mkGetCall Sample.queue 90000 90000] in
  ~ In "a" (claimedIds
              (snd (serve calls
                      (fst (MongooseQueue.ack Sample.queue (IdObject "a") db))))).
Proof.
  intros db calls.
  apply (finished_job_is_not_returned Sample.queue (IdObject "a") "a" "failed"
           calls db).
  - reflexivity.
  - distinct_ids.
  - left; reflexivity.
Defined.

(** X7. The blocking window.  When [get] returns a job, the view's
    [blockedUntil] is the update clock plus [blockDuration]; no later
    [get] whose filter clock is at or before that time returns the job,
    from whatever queue instance.  Once the clock has passed it, the job
    matches the filter again for any queue whose [maxRetries] its counter
    has not exceeded, so such a [get] does not come back empty. *)
Theorem claimed_job_is_blocked q now1 now2 db db1 v :
  NoDup (ids (jobs db)) ->
  MongooseQueue.get q now1 now2 db = (db1, Ok (Some v)) ->
  View.blockedUntil v
    = now2 + MongooseQueue.blockDuration (MongooseQueue.options q)
  /\ (forall calls,
        (forall c, In c calls -> filterClock c <= View.blockedUntil v) ->
        ~ In (View.id v) (claimedIds (snd (serve calls db1))))
  /\ (forall q' later later2,
        View.blockedUntil v < later ->
        (forall j, In j (jobs db) -> Job._id j = View.id v ->
           Job.retries j < MongooseQueue.maxRetries (MongooseQueue.options q')) ->
        (exists j', In j' (jobs db1) /\ Job._id j' = View.id v
           /\ MongooseQueue.claimable
                (MongooseQueue.maxRetries (MongooseQueue.options q')) later j'
              = true)
        /\ exists v', snd (MongooseQueue.get q' later later2 db1) = Ok (Some v')).
Proof.
  intros Hnd Hget.
  destruct (get_outcome q now1 now2 db)
    as [[_ Hnone] | (pre & d & post & Hsplit & Hc & _ & Hsome)];
    rewrite Hget in *; [discriminate|].
  injection Hsome as -> ->. simpl.
  set (d' := Job.claim _ _ _ d).
  assert (NoDup (ids (pre ++ d' :: post))) as Hnd'
      by (rewrite (ids_update pre d d' post eq_refl), <- Hsplit; exact Hnd).
  apply claimable_iff in Hc. destruct Hc as (Hundone & _ & _).
  split; [reflexivity|]. split.
  - intros calls Hearly.
    apply (never_claimed calls (withJobs db (pre ++ d' :: post)) d' Hnd'
             (in_elt d' pre post)).
    intros c Hc. apply not_claimable_iff. intros (_ & Hb & _).
    specialize (Hearly c Hc). simpl in Hb. lia.
  - intros q' later later2 Hlater Hretries.
    assert (MongooseQueue.claimable
              (MongooseQueue.maxRetries (MongooseQueue.options q')) later d'
            = true) as Hagain.
    { apply claimable_iff. simpl. repeat split; [exact Hundone | exact Hlater|].
      assert (Job.retries d
              < MongooseQueue.maxRetries (MongooseQueue.options q')) as Hlt
          by (apply Hretries; [rewrite Hsplit; apply in_elt | reflexivity]).
      lia. }
    split.
    + exists d'. split; [apply in_elt|]. split; [reflexivity | exact Hagain].
    + destruct (get_outcome q' later later2 (withJobs db (pre ++ d' :: post)))
        as [[Hnone _] | (pre2 & d2 & post2 & _ & _ & _ & Hget2)].
      * rewrite (Hnone d' (in_elt d' pre post)) in Hagain. discriminate.
      * rewrite Hget2. eexists. reflexivity.
Qed.

Lemma claimed_job_is_blocked_witness :
  let db := mkDb [Sample.job "a" 10] Sample.documents in
  let claimed := fst (MongooseQueue.get Sample.queue 5000 5001 db) in
  ~ In "a" (claimedIds
              (snd (serve [mkGetCall (Sample.worker "beta" "w2" None) 20000 20000;
                           mkGetCall (Sample.worker "gamma" "w3" None) 35001 35002]
                          claimed)))
  /\ exists v',
       snd (MongooseQueue.get (Sample.worker "beta" "w2" None) 35002 35003 claimed)
       = Ok (Some v').
Proof.
  intros db claimed.
  destruct (claimed_job_is_blocked Sample.queue 5000 5001 db claimed
              (View.mk "a" Sample.payloadDoc 35001 false))
    as (_ & Hblocked & Hagain).
  - distinct_ids.
  - reflexivity.
  - split.
    + apply Hblocked. intros c Hc. simpl in Hc.
      repeat (destruct Hc as [<- | Hc]; [simpl; lia|]). contradiction.
    + apply (Hagain (Sample.worker "beta" "w2" None) 35002 35003).
      * simpl. lia.
      * intros j [<- | []] _. simpl. lia.
Defined.

(** X8. [retries] counts the claims: after any sequence of [get] calls a
    stored job is still stored under its id, its [retries] is what it was
    plus the number of times the sequence returned it, and its payload,
    [createdAt], [done] and [error] are what they were. *)
Theorem retries_counts_claims calls db j :
  NoDup (ids (jobs db)) ->
  In j (jobs db) ->
  exists j',
    In j' (jobs (fst (serve calls db)))
    /\ Job._id j' = Job._id j
    /\ Job.retries j'
       = Job.retries j
         + Z.of_nat (count_occ string_dec (claimedIds (snd (serve calls db)))
                       (Job._id j))
    /\ Job.payload j' = Job.payload j
    /\ Job.createdAt j' = Job.createdAt j
    /\ Job.done j' = Job.done j
    /\ Job.error j' = Job.error j.
Proof.
  revert db j.
  induction calls as [|c rest IH]; intros db j Hnd Hin.
  - exists j. simpl. repeat split; [exact Hin | lia].
  - destruct (serve_claim_cases c rest db)
      as [[_ Hs] | (pre & d & post & v & Hsplit & _ & _ & Hv & Hs)];
      rewrite Hs; simpl.
    + apply IH; assumption.
    + rewrite Hv.
      match goal with
      | |- context [mkDb (pre ++ ?x :: post) _] => set (d' := x) in *
      end.
      assert (NoDup (ids (jobs (mkDb (pre ++ d' :: post) (documents db)))))
        as Hnd'
          by (simpl; rewrite (ids_update pre d d' post eq_refl), <- Hsplit;
              exact Hnd).
      destruct (string_dec (Job._id d) (Job._id j)) as [Heq | Hne].
      * assert (j = d) as ->
            by (apply (unique_id (jobs db)); auto; rewrite Hsplit; apply in_elt).
        destruct (IH (mkDb (pre ++ d' :: post) (documents db)) d' Hnd'
                     (in_elt d' pre post))
          as (j' & Hj' & Hid & Hret & Hp & Hcr & Hdone & Herr).
        exists j'. split; [exact Hj'|]. split; [exact Hid|].
        split; [|repeat split; assumption].
        rewrite Hret. change (Job._id d') with (Job._id d).
        change (Job.retries d') with (Job.retries d + 1). lia.
      * assert (In j (jobs (mkDb (pre ++ d' :: post) (documents db)))) as Hin'.
        { simpl. rewrite Hsplit in Hin.
          apply (in_update_other pre d d' post j Hin). congruence. }
        apply (IH _ j Hnd' Hin').
Qed.

Lemma retries_counts_claims_witness :
  let calls := [mkGetCall Sample.queue 5000 5000;
                mkGetCall Sample.queue 40000 40000;
                mkGetCall Sample.queue 40001 40001] in
  let db := mkDb [Sample.job "a" 10] Sample.documents in
  exists j', In j' (jobs (fst (serve calls db)))
             /\ Job._id j' = "a" /\ Job.retries j' = 2.
Proof.
  intros calls db.
  destruct (retries_counts_claims calls db (Sample.job "a" 10))
    as (j' & Hj' & Hid & Hret & _).
  - distinct_ids.
  - left; reflexivity.
  - exists j'. split; [exact Hj'|]. split; [exact Hid | exact Hret].
Defined.

(** ** First in, first out *)

Lemma oneWindow_rest mr hi c rest docs :
  oneWindow mr hi (c :: rest) docs -> oneWindow mr hi rest docs.
Proof.
  intros [Hcalls Hready]. split.
  - intros c' Hc'. apply Hcalls. right; assumption.
  - intros c' j Hc'. apply Hready. right; assumption.
Qed.

Lemma oneWindow_claimed mr hi c rest pre d post :
  let d' :=
    Job.claim
      (updateClock c + MongooseQueue.blockDuration (MongooseQueue.options (caller c)))
      (MongooseQueue.workerId (caller c))
      (MongooseQueue.workerHostname (caller c)) d in
  oneWindow mr hi (c :: rest) (pre ++ d :: post) ->
  MongooseQueue.claimable mr hi d' = false
  /\ oneWindow mr hi rest (pre ++ d' :: post).
Proof.
  intros d' [Hcalls Hready].
  destruct (Hcalls c (or_introl eq_refl)) as (_ & _ & Hhi).
  assert (MongooseQueue.claimable mr hi d' = false) as Hd'
      by (apply not_claimable_iff; intros (_ & Hb & _); simpl in Hb; lia).
  split; [exact Hd'|]. split.
  - intros c' Hc'. apply Hcalls. right; assumption.
  - intros c' j Hc' Hj Hdone Hret Hb.
    apply (Hready c' j); auto; [right; assumption|].
    apply (in_update_other pre d' d post j Hj).
    intros ->. simpl in Hb. lia.
Qed.

(** Within one window, whatever is returned was claimable at [hi]. *)
Lemma claimed_in_window mr hi calls db i :
  NoDup (ids (jobs db)) ->
  oneWindow mr hi calls (jobs db) ->
  In i (claimedIds (snd (serve calls db))) ->
  exists x, In x (jobs db) /\ Job._id x = i
            /\ MongooseQueue.claimable mr hi x = true.
Proof.
  revert db.
  induction calls as [|c rest IH]; intros db Hnd Hwin Hi; [contradiction|].
  destruct (proj1 Hwin c (or_introl eq_refl)) as (Hmr & Hlo & _).
  destruct (serve_claim_cases c rest db)
    as [[_ Hs] | (pre & d & post & v & Hsplit & Hc & _ & Hv & Hs)];
    rewrite Hs in Hi; simpl in Hi.
  - apply (IH db Hnd (oneWindow_rest _ _ _ _ _ Hwin) Hi).
  - rewrite Hv, Hmr in *. rewrite Hsplit in Hwin.
    destruct (oneWindow_claimed mr hi c rest pre d post Hwin) as [Hd' Hwin'].
    match type of Hd' with
    | MongooseQueue.claimable _ _ ?x = false => set (d' := x) in *
    end.
    destruct Hi as [<- | Hi].
    + exists d. split; [rewrite Hsplit; apply in_elt|].
      split; [reflexivity|].
      apply (claimable_later mr (filterClock c)); assumption.
    + assert (NoDup (ids (jobs (mkDb (pre ++ d' :: post) (documents db)))))
        as Hnd'
          by (simpl; rewrite (ids_update pre d d' post eq_refl), <- Hsplit;
              exact Hnd).
      destruct (IH (mkDb (pre ++ d' :: post) (documents db)) Hnd' Hwin' Hi)
        as (x & Hx & Hid & Hcl).
      exists x. split; [|split; assumption].
      rewrite Hsplit. simpl in Hx.
      apply (in_update_other pre d' d post x Hx).
      intros ->. congruence.
Qed.

(** X9. First in, first out.  For [get] calls whose clock values lie in
    one blocking window, on a collection with distinct ids: when one call
    returns job [a] and a later call returns job [b], [a] was not created
    after [b]. *)
Theorem gets_return_oldest_first mr hi calls db :
  NoDup (ids (jobs db)) ->
  oneWindow mr hi calls (jobs db) ->
  forall earlier a between b later,
    claimedIds (snd (serve calls db)) = earlier ++ a :: between ++ b :: later ->
    forall ja jb,
      In ja (jobs db) -> In jb (jobs db) ->
      Job._id ja = a -> Job._id jb = b ->
      Job.createdAt ja <= Job.createdAt jb.
Proof.
  revert db.
  induction calls as [|c rest IH];
    intros db Hnd Hwin earlier a between b later Hclaimed ja jb Hja Hjb Ha Hb.
  - destruct earlier; discriminate.
  - destruct (proj1 Hwin c (or_introl eq_refl)) as (Hmr & Hlo & _).
    destruct (serve_claim_cases c rest db)
      as [[_ Hs] | (pre & d & post & v & Hsplit & Hc & Hmin & Hv & Hs)];
      rewrite Hs in Hclaimed; simpl in Hclaimed.
    + apply (IH db Hnd (oneWindow_rest _ _ _ _ _ Hwin) earlier a between b
                later Hclaimed ja jb Hja Hjb Ha Hb).
    + rewrite Hv, Hmr in *.
      pose proof Hwin as Hwin0. rewrite Hsplit in Hwin.
      destruct (oneWindow_claimed mr hi c rest pre d post Hwin) as [Hd' Hwin'].
      match type of Hd' with
      | MongooseQueue.claimable _ _ ?x = false => set (d' := x) in *
      end.
      assert (NoDup (ids (jobs (mkDb (pre ++ d' :: post) (documents db)))))
        as Hnd'
          by (simpl; rewrite (ids_update pre d d' post eq_refl), <- Hsplit;
              exact Hnd).
      assert (forall j, In j (jobs db) ->
                exists j', In j' (pre ++ d' :: post)
                           /\ Job._id j' = Job._id j
                           /\ Job.createdAt j' = Job.createdAt j) as Hkept.
      { intros j Hj. rewrite Hsplit in Hj.
        apply in_app_or in Hj. destruct Hj as [Hj | [<- | Hj]].
        - exists j. split; [apply in_or_app; left; exact Hj | split; reflexivity].
        - exists d'. split; [apply in_elt | split; reflexivity].
        - exists j. split; [apply in_or_app; right; right; exact Hj
                           | split; reflexivity]. }
      destruct earlier as [|a0 earlier]; simpl in Hclaimed;
        injection Hclaimed as Hhead Htail.
      * (* [a] is the job claimed by this call *)
        assert (ja = d) as ->.
        { apply (unique_id (jobs db)); auto; [rewrite Hsplit; apply in_elt|].
          congruence. }
        destruct (claimed_in_window mr hi rest
                    (mkDb (pre ++ d' :: post) (documents db)) b Hnd' Hwin')
          as (x & Hx & Hid & Hcl).
        { rewrite Htail. apply in_or_app. right. left. reflexivity. }
        simpl in Hx.
        assert (In x (jobs db)) as Hxdb.
        { rewrite Hsplit. apply (in_update_other pre d' d post x Hx).
          intros ->. congruence. }
        assert (jb = x) as ->
            by (apply (unique_id (jobs db)); auto; congruence).
        apply Hmin; [exact Hxdb|].
        apply claimable_iff in Hcl. destruct Hcl as (Hdone & Hblock & Hret).
        apply claimable_iff. repeat split; try assumption.
        apply (proj2 Hwin0 c x); auto. left; reflexivity.
      * destruct (Hkept ja Hja) as (ja' & Hja' & Hida & Hca).
        destruct (Hkept jb Hjb) as (jb' & Hjb' & Hidb & Hcb).
        rewrite <- Hca, <- Hcb.
        apply (IH (mkDb (pre ++ d' :: post) (documents db)) Hnd' Hwin'
                  earlier a between b later Htail ja' jb' Hja' Hjb');
          congruence.
Qed.

Lemma gets_return_oldest_first_witness :
  let calls := [mkGetCall Sample.queue 5000 5000;
                mkGetCall (Sample.worker "beta" "w2" None) 5002 5002;
                mkGetCall Sample.queue 5001 5003] in
  let db := mkDb [Sample.job "a" 30; Sample.job "b" 20; Sample.job "c" 25]
                 Sample.documents in
  claimedIds (snd (serve calls db)) = ["b"; "c"; "a"]
  /\ Job.createdAt (Sample.job "b" 20) <= Job.createdAt (Sample.job "a" 30).
Proof.
  intros calls db. split; [reflexivity|].
  apply (gets_return_oldest_first 5 5002 calls db) with
    (earlier := []) (a := "b") (between := ["c"]) (b := "a") (later := []).
  - distinct_ids.
  - split.
    + intros c Hc. simpl in Hc.
      repeat (destruct Hc as [<- | Hc]; [simpl; lia|]). contradiction.
    + intros c j Hc Hj _ _ _. simpl in Hc, Hj.
      repeat (destruct Hc as [<- | Hc];
              [repeat (destruct Hj as [<- | Hj]; [simpl; lia|]); contradiction|]).
      contradiction.
  - reflexivity.
  - simpl. right; left; reflexivity.
  - simpl. left; reflexivity.
  - reflexivity.
  - reflexivity.
Defined.

(** ** What one operation does to a stored job *)

Lemma findOneAndUpdate_stored (R : Job.t -> Job.t -> Prop)
    filter update sort docs j' :
  (forall d, R d d) ->
  (forall d, filter d = true -> R d (update d)) ->
  In j' (fst (Store.findOneAndUpdate filter update sort docs)) ->
  exists j, In j docs /\ R j j'.
Proof.
  intros Hsame Hupdated Hin.
  destruct (findOneAndUpdate_outcome filter update sort docs)
    as [_ | pre d post -> Hf _ _]; simpl in Hin.
  - exists j'. split; [exact Hin | apply Hsame].
  - apply in_app_or in Hin. destruct Hin as [Hin | [<- | Hin]].
    + exists j'. split; [apply in_or_app; left; exact Hin | apply Hsame].
    + exists d. split; [apply in_elt | apply Hupdated; exact Hf].
    + exists j'. split; [apply in_or_app; right; right; exact Hin | apply Hsame].
Qed.

Lemma byId_stored (R : Job.t -> Job.t -> Prop) jobId update docs j' :
  (forall d, R d d) ->
  (forall d, R d (update d)) ->
  In j' (fst (MongooseQueue.byId jobId update docs)) ->
  exists j, In j docs /\ R j j'.
Proof.
  intros Hsame Hupdated. unfold MongooseQueue.byId.
  destruct (Store.castObjectId jobId) as [id|].
  - apply findOneAndUpdate_stored; auto.
  - simpl. intros Hin. exists j'. split; [exact Hin | apply Hsame].
Qed.

Lemma add_stored q now fresh payload db j' :
  In j' (jobs (fst (MongooseQueue.add q now fresh payload db))) ->
  In j' (jobs db)
  \/ (~ In fresh (ids (jobs db))
      /\ exists ref,
           j' = Job.mk fresh
                  (blockedUntilDefault (schema (MongooseQueue.JobModel q)))
                  None None 0 ref false None now).
Proof.
  unfold MongooseQueue.add.
  destruct (negb (Js.truthy payload)); [left; assumption|].
  destruct (negb (Js.truthy (Js.prop payload "_id"))); [left; assumption|].
  unfold Store.save.
  destruct (cast _ _) as [ref|]; [|left; assumption].
  destruct (negb (Js.present ref)); [left; assumption|].
  destruct (existsb (String.eqb fresh) (ids (jobs db))) eqn:Hdup;
    [left; assumption|].
  simpl. intros Hin. apply in_app_or in Hin.
  destruct Hin as [Hin | [<- | []]]; [left; exact Hin|].
  right. split; [apply existsb_eqb_false; exact Hdup|].
  exists ref. reflexivity.
Qed.

(** Every job stored after an operation is a job stored before it,
    related to it by [R], or the job a successful [add] has just made. *)
Lemma perform_stored (R : Job.t -> Job.t -> Prop) q call db j' :
  (forall d, R d d) ->
  (forall now1 now2 d,
     call = CallGet now1 now2 ->
     MongooseQueue.claimable
       (MongooseQueue.maxRetries (MongooseQueue.options q)) now1 d = true ->
     R d (Job.claim
            (now2 + MongooseQueue.blockDuration (MongooseQueue.options q))
            (MongooseQueue.workerId q) (MongooseQueue.workerHostname q) d)) ->
  (forall jobId d, call = CallAck jobId -> R d (Job.setDone d)) ->
  (forall jobId message d,
     call = CallError jobId message -> R d (Job.setError message d)) ->
  In j' (jobs (perform q call db)) ->
  (exists j, In j (jobs db) /\ R j j')
  \/ (exists now fresh payload ref,
        call = CallAdd now fresh payload
        /\ ~ In fresh (ids (jobs db))
        /\ j' = Job.mk fresh
                  (blockedUntilDefault (schema (MongooseQueue.JobModel q)))
                  None None 0 ref false None now).
Proof.
  intros Hsame Hget Hack Herror.
  destruct call as [now fresh payload | now1 now2 | jobId | jobId message | | ];
    simpl; intros Hin.
  - apply add_stored in Hin. destruct Hin as [Hin | (Hfresh & ref & ->)].
    + left. exists j'. split; [exact Hin | apply Hsame].
    + right. exists now, fresh, payload, ref. auto.
  - left. unfold MongooseQueue.get in Hin.
    apply (findOneAndUpdate_stored R
             (MongooseQueue.claimable
                (MongooseQueue.maxRetries (MongooseQueue.options q)) now1)
             (Job.claim
                (now2 + MongooseQueue.blockDuration (MongooseQueue.options q))
                (MongooseQueue.workerId q) (MongooseQueue.workerHostname q))
             (Some Job.createdAt) (jobs db) j' Hsame).
    + intros d. apply Hget. reflexivity.
    + destruct (Store.findOneAndUpdate _ _ _ _) as [docs [err | [job|]]];
        exact Hin.
  - left. unfold MongooseQueue.ack in Hin.
    apply (byId_stored R jobId Job.setDone (jobs db) j' Hsame).
    + intros d. apply (Hack jobId). reflexivity.
    + destruct (MongooseQueue.byId _ _ _) as [docs [err | [job|]]];
        exact Hin.
  - left. unfold MongooseQueue.error in Hin.
    apply (byId_stored R jobId (Job.setError message) (jobs db) j' Hsame).
    + intros d. apply (Herror jobId message). reflexivity.
    + destruct (MongooseQueue.byId _ _ _) as [docs [err | [job|]]];
        exact Hin.
  - left. exists j'. split; [|apply Hsame].
    unfold MongooseQueue.clean in Hin. simpl in Hin.
    apply filter_In in Hin. tauto.
  - left. exists j'. split; [|apply Hsame].
    unfold MongooseQueue.reset in Hin. simpl in Hin.
    apply filter_In in Hin. tauto.
Qed.

(** Closes a goal with a hypothesis saying that the call at hand is not
    of its own kind. *)
Ltac excluded_call :=
  intros; exfalso;
  match goal with
  | H : _ |- _ => solve [eapply H; reflexivity]
  end.

(** X10. Which operation changes which field.  A job stored after an
    operation is the job a successful [add] has just made (fresh id,
    [retries = 0], not done, no error, no worker, [createdAt] the time of
    the call), or it was stored before under the same id with the same
    payload and [createdAt], and then: only [get] has changed its
    [blockedUntil], [workerHostname], [workerId] or [retries]; only
    [error] has changed its [error]; only [ack] and [error] have changed
    its [done]. *)
Theorem operation_changes_only_its_fields q call db j' :
  In j' (jobs (perform q call db)) ->
  (exists j,
     In j (jobs db)
     /\ Job._id j' = Job._id j
     /\ Job.payload j' = Job.payload j
     /\ Job.createdAt j' = Job.createdAt j
     /\ ((forall now1 now2, call <> CallGet now1 now2) ->
         Job.blockedUntil j' = Job.blockedUntil j
         /\ Job.workerHostname j' = Job.workerHostname j
         /\ Job.workerId j' = Job.workerId j
         /\ Job.retries j' = Job.retries j)
     /\ ((forall jobId message, call <> CallError jobId message) ->
         Job.error j' = Job.error j)
     /\ ((forall jobId, call <> CallAck jobId) ->
         (forall jobId message, call <> CallError jobId message) ->
         Job.done j' = Job.done j))
  \/ (exists now fresh payload ref,
        call = CallAdd now fresh payload
        /\ ~ In fresh (ids (jobs db))
        /\ j' = Job.mk fresh
                  (blockedUntilDefault (schema (MongooseQueue.JobModel q)))
                  None None 0 ref false None now).
Proof.
  intros Hin.
  destruct (perform_stored
              (fun j j' =>
                 Job._id j' = Job._id j
                 /\ Job.payload j' = Job.payload j
                 /\ Job.createdAt j' = Job.createdAt j
                 /\ ((forall now1 now2, call <> CallGet now1 now2) ->
                     Job.blockedUntil j' = Job.blockedUntil j
                     /\ Job.workerHostname j' = Job.workerHostname j
                     /\ Job.workerId j' = Job.workerId j
                     /\ Job.retries j' = Job.retries j)
                 /\ ((forall jobId message, call <> CallError jobId message) ->
                     Job.error j' = Job.error j)
                 /\ ((forall jobId, call <> CallAck jobId) ->
                     (forall jobId message, call <> CallError jobId message) ->
                     Job.done j' = Job.done j))
              q call db j') as [(j & Hj & HR) | Hnew]; try exact Hin.
  - intros d. repeat split.
  - intros now1 now2 d -> _. simpl. repeat split; excluded_call.
  - intros jobId d ->. simpl. repeat split; excluded_call.
  - intros jobId message d ->. simpl. repeat split; excluded_call.
  - left. exists j. split; [exact Hj | exact HR].
  - right. exact Hnew.
Qed.

Lemma operation_changes_only_its_fields_witness :
  let db := mkDb [Job.mk "a" 35000 (Some "alpha") (Some "w1") 1
                         (Js.objectId "p1") false None 10]
                 Sample.documents in
  let acked := Job.mk "a" 35000 (Some "alpha") (Some "w1") 1
                      (Js.objectId "p1") true None 10 in
  exists j, In j (jobs db)
            /\ Job.blockedUntil acked = Job.blockedUntil j
            /\ Job.retries acked = Job.retries j
            /\ Job.error acked = Job.error j.
Proof.
  intros db acked.
  destruct (operation_changes_only_its_fields Sample.queue (CallAck (IdObject "a")) db
              acked)
    as [(j & Hj & _ & _ & _ & Hframe & Herror & _)
       | (now & fresh & p & ref & Hcall & _)];
    [left; reflexivity | | discriminate].
  exists j. split; [exact Hj|].
  destruct Hframe as (Hb & _ & _ & Hr); [discriminate|].
  split; [exact Hb|]. split; [exact Hr|].
  apply Herror. discriminate.
Defined.

(** X11. The life of a job.  Whatever operations run, from whatever queue
    instances, a job stored at the end either was made by an [add] of the
    sequence (and carries that call's fresh id and creation time), or was
    stored at the start under the same id, and then its payload and
    [createdAt] are unchanged, its [retries] has not gone down, and if it
    was done it still is. *)
Theorem job_lifecycle calls db j' :
  In j' (jobs (run calls db)) ->
  (exists j,
     In j (jobs db)
     /\ Job._id j' = Job._id j
     /\ Job.payload j' = Job.payload j
     /\ Job.createdAt j' = Job.createdAt j
     /\ Job.retries j <= Job.retries j'
     /\ (Job.done j = true -> Job.done j' = true))
  \/ (exists q now fresh payload,
        In (q, CallAdd now fresh payload) calls
        /\ Job._id j' = fresh
        /\ Job.createdAt j' = now
        /\ 0 <= Job.retries j').
Proof.
  revert db.
  induction calls as [|[q call] rest IH]; intros db Hin; simpl in Hin.
  - left. exists j'. repeat split; auto; lia.
  - destruct (IH _ Hin)
      as [(j1 & Hj1 & Hid & Hp & Hc & Hr & Hd)
         | (q' & now & fresh & payload & Hcall & Hnew)].
    + destruct (perform_stored
                  (fun j j1 =>
                     Job._id j1 = Job._id j
                     /\ Job.payload j1 = Job.payload j
                     /\ Job.createdAt j1 = Job.createdAt j
                     /\ Job.retries j <= Job.retries j1
                     /\ (Job.done j = true -> Job.done j1 = true))
                  q call db j1)
        as [(j & Hj & Hid0 & Hp0 & Hc0 & Hr0 & Hd0)
           | (now & fresh & payload & ref & -> & _ & ->)];
        try exact Hj1.
      * intros d. repeat split; auto; lia.
      * intros now1 now2 d _ _. simpl. repeat split; auto; lia.
      * intros jobId d _. simpl. repeat split; auto; lia.
      * intros jobId message d _. simpl. repeat split; auto; lia.
      * left. exists j. split; [exact Hj|].
        repeat split; try congruence; auto; lia.
      * right. exists q, now, fresh, payload.
        split; [left; reflexivity|]. simpl in *.
        split; [exact Hid|]. split; [exact Hc | lia].
    + right. exists q', now, fresh, payload.
      split; [right; exact Hcall | exact Hnew].
Qed.

Lemma job_lifecycle_witness :
  let calls := [(Sample.queue, CallGet 5000 5000);
                (Sample.queue, CallAck (IdObject "a"));
                (Sample.queue, CallGet 90000 90000);
                (Sample.queue, CallError (IdObject "b") "failed")] in
  let db := mkDb [Job.mk "a" 1000 None None 0 (Js.objectId "p1") true None 10;
                  Sample.job "b" 20] Sample.documents in
  let last := Job.mk "b" 120000 (Some "alpha") (Some "123456789") 2
                     (Js.objectId "p1") true (Some "failed") 20 in
  In last (jobs (run calls db))
  /\ exists j, In j (jobs db) /\ Job._id j = "b"
               /\ Job.createdAt j = 20 /\ Job.retries j <= 2.
Proof.
  intros calls db last.
  assert (In last (jobs (run calls db))) as Hin
      by (right; left; reflexivity).
  split; [exact Hin|].
  destruct (job_lifecycle calls db last Hin)
    as [(j & Hj & Hid & _ & Hcreated & Hretries & _)
       | (q & now & fresh & payload & Hcall & _)].
  - exists j. split; [exact Hj|]. split; [symmetry; exact Hid|].
    split; [symmetry; exact Hcreated | exact Hretries].
  - simpl in Hcall.
    repeat (destruct Hcall as [Hcall | Hcall]; [discriminate|]). contradiction.
Defined.

(** ** From [add] to [get] *)

Lemma add_ok q now fresh payload db db1 jobId :
  MongooseQueue.add q now fresh payload db = (db1, Ok jobId) ->
  exists ref,
    cast (payloadType (schema (MongooseQueue.JobModel q)))
         (Js.prop payload "_id") = Some ref
    /\ jobId = fresh
    /\ db1 = mkDb (jobs db ++
                     [Job.mk fresh
                        (blockedUntilDefault (schema (MongooseQueue.JobModel q)))
                        None None 0 ref false None now])
                  (documents db).
Proof.
  unfold MongooseQueue.add.
  destruct (Js.truthy payload); simpl; [|discriminate].
  destruct (Js.truthy (Js.prop payload "_id")); simpl; [|discriminate].
  unfold Store.save.
  destruct (cast _ _) as [ref|]; [|discriminate].
  destruct (negb (Js.present ref)); [discriminate|].
  destruct (existsb (String.eqb fresh) (ids (jobs db))); [discriminate|].
  simpl. intros Hadd. injection Hadd as Hdb Hid.
  exists ref. split; [reflexivity|].
  split; [symmetry; exact Hid | symmetry; exact Hdb].
Qed.

(** X12. From [add] to [get].  After a successful [add], a [get] from any
    queue instance returns the new job, under the id [add] reported and
    with the payload reference resolved, provided no other job is
    claimable, the filter clock is past the [blockedUntil] default of the
    schema (the time the schema was built) and [maxRetries] is not
    negative. *)
Theorem added_job_is_claimed q q' now fresh payload db db1 jobId later later2 :
  MongooseQueue.add q now fresh payload db = (db1, Ok jobId) ->
  (forall j, In j (jobs db) ->
     MongooseQueue.claimable
       (MongooseQueue.maxRetries (MongooseQueue.options q')) later j = false) ->
  blockedUntilDefault (schema (MongooseQueue.JobModel q)) < later ->
  0 <= MongooseQueue.maxRetries (MongooseQueue.options q') ->
  exists ref,
    cast (payloadType (schema (MongooseQueue.JobModel q)))
         (Js.prop payload "_id") = Some ref
    /\ snd (MongooseQueue.get q' later later2 db1)
       = Ok (Some (View.mk jobId
                     (Store.resolve
                        (documents db (MongooseQueue.payloadModel q')) ref)
                     (later2
                      + MongooseQueue.blockDuration (MongooseQueue.options q'))
                     false)).
Proof.
  intros Hadd Hothers Hunblocked Hretries.
  destruct (add_ok q now fresh payload db db1 jobId Hadd)
    as (ref & Hcast & -> & ->).
  exists ref. split; [exact Hcast|].
  set (new := Job.mk fresh _ None None 0 ref false None now).
  assert (MongooseQueue.claimable
            (MongooseQueue.maxRetries (MongooseQueue.options q')) later new
          = true) as Hnew
      by (apply claimable_iff; simpl; auto).
  destruct (get_outcome q' later later2 (mkDb (jobs db ++ [new]) (documents db)))
    as [[Hnone _] | (pre & d & post & Hsplit & Hc & _ & Hget)].
  - rewrite (Hnone new) in Hnew; [discriminate|].
    simpl. apply in_or_app. right. left. reflexivity.
  - assert (d = new) as ->.
    { assert (In d (jobs db ++ [new])) as Hd
          by (simpl in Hsplit; rewrite Hsplit; apply in_elt).
      apply in_app_or in Hd. destruct Hd as [Hd | [Hd | []]]; [|auto].
      rewrite (Hothers d Hd) in Hc. discriminate. }
    rewrite Hget. reflexivity.
Qed.

Lemma added_job_is_claimed_witness :
  snd (MongooseQueue.get (Sample.worker "beta" "w2" None) 6000 6001
         (fst (MongooseQueue.add Sample.queue 5000 "j1" Sample.payloadDoc
                 Sample.emptyDb)))
  = Ok (Some (View.mk "j1" Sample.payloadDoc 36001 false)).
Proof.
  destruct (added_job_is_claimed Sample.queue (Sample.worker "beta" "w2" None)
              5000 "j1" Sample.payloadDoc Sample.emptyDb
              (fst (MongooseQueue.add Sample.queue 5000 "j1" Sample.payloadDoc
                      Sample.emptyDb))
              "j1" 6000 6001)
    as (ref & Hcast & Hget).
  - reflexivity.
  - intros j [].
  - simpl. lia.
  - simpl. lia.
  - rewrite Hget. simpl in Hcast. injection Hcast as <-. reflexivity.
Defined.

(** ** The cast of a job id, on examples *)

Example castObjectId_examples :
  Store.castObjectId (IdObject "57a9a8c526f9c3c114f00000")
    = Some "57a9a8c526f9c3c114f00000"
  /\ Store.castObjectId (IdString "57a9a8c526f9c3c114f00000")
     = Some "57a9a8c526f9c3c114f00000"
  /\ Store.castObjectId (IdString "57A9A8C526F9C3C114F00000")
     = Some "57a9a8c526f9c3c114f00000"
  /\ Store.castObjectId (IdString "hello world!")
     = Some "68656c6c6f20776f726c6421"
  /\ Store.castObjectId (IdString "123123123") = None
  /\ Store.castObjectId (IdString "12312313213123") = None
  /\ Store.castObjectId (IdString "57a9a8c526f9c3c114f0000g") = None
  /\ Store.castObjectId (IdString "") = None.
Proof. repeat split. Qed.
